(** * A research assistant's retrieval core: chunking, vector store, retrieval
      and the web-search decision.

    Shallow embedding of [utils/rag.py] ([DocumentProcessor], [VectorStore],
    [RAGSystem]), of the decision logic of [app_original.py]
    ([generate_response], [should_use_web_search]), of
    [utils/web_search.py] ([WebSearchTool]) and of the two key checks of
    [config/config.py] ([validate], [get_missing_keys]).

    Conventions.
    - A Python [str] is a [string]; the case mapping [str.lower] is modelled on
      ASCII letters (other characters are left as they are).
    - A Python [int] is a [Z]; sequence lengths are [nat].
    - A [while] loop is a fuel-indexed function into [option]: [None] means the
      fuel ran out.  [chunk_text] fixes a fuel that is enough whenever the loop
      terminates at all, so its [None] means "the Python loop never returns".
    - A raised exception that is not caught inside the modelled function is
      the constructor [Raised] of [outcome].
    - What the code reaches outside itself (the embedding provider, the file
      system and the document readers, the web search and the language
      model) is a class of operations; [Fixture] gives small instances for
      the examples.

    The model comes first; the properties follow from [PyStrFacts] on. *)

From Stdlib Require Import ZArith QArith Lqa List String Ascii Bool Lia Arith.
From Stdlib Require Import Sorting.Permutation Sorting.Sorted.
From Stdlib Require Import DecimalString.
Import ListNotations.

Set Implicit Arguments.
Close Scope Q_scope.
Local Open Scope Z_scope.

(* ------------------------------------------------------------------------ *)
(** * Python strings *)

Module PyStr.

(** [s.lower()] on ASCII: 'A'..'Z' are moved to 'a'..'z'. *)
Definition lower_char (c : ascii) : ascii :=
  let n := nat_of_ascii c in
  if (65 <=? n)%nat && (n <=? 90)%nat then ascii_of_nat (n + 32) else c.

Fixpoint lower (s : string) : string :=
  match s with
  | EmptyString => EmptyString
  | String c s' => String (lower_char c) (lower s')
  end.

(** [sub in s]: [sub] occurs in [s] as a contiguous substring. *)
Fixpoint contains (sub s : string) : bool :=
  prefix sub s ||
  match s with
  | EmptyString => false
  | String _ s' => contains sub s'
  end.

(** A slice bound [i] of a sequence of length [len], as Python normalises it:
    a negative bound counts from the end, and the result is clamped to
    [0 .. len]. *)
Definition slice_bound (len i : Z) : Z :=
  if i <? 0 then Z.max (i + len) 0 else Z.min i len.

(** [s[start:stop]] *)
Definition slice (s : string) (start stop : Z) : string :=
  let len := Z.of_nat (String.length s) in
  let a := slice_bound len start in
  let b := slice_bound len stop in
  substring (Z.to_nat a) (Z.to_nat (b - a)) s.

(** [s[start:]] *)
Definition slice_from (s : string) (start : Z) : string :=
  slice s start (Z.of_nat (String.length s)).

(** [l[:stop]] on a list. *)
Definition list_slice_to {A : Type} (l : list A) (stop : Z) : list A :=
  firstn (Z.to_nat (slice_bound (Z.of_nat (List.length l)) stop)) l.

(** [s.rfind(c)] for a one-character [c]: the highest index where [c]
    occurs, or -1. *)
Fixpoint rfind (c : ascii) (s : string) : Z :=
  match s with
  | EmptyString => -1
  | String d s' =>
      let r := rfind c s' in
      if 0 <=? r then r + 1
      else if Ascii.eqb d c then 0 else -1
  end.

(** [str(n)] for a natural number, as an f-string prints it. *)
Definition str_of_nat (n : nat) : string :=
  NilEmpty.string_of_uint (Nat.to_uint n).

(** [''.join(parts)] *)
Definition join (parts : list string) : string :=
  fold_right String.append EmptyString parts.

(** [c.isspace()] on ASCII: tab, line feed, vertical tab, form feed,
    carriage return, the four separators 28 to 31, and the space. *)
Definition is_space (c : ascii) : bool :=
  let n := nat_of_ascii c in
  ((9 <=? n)%nat && (n <=? 13)%nat) || ((28 <=? n)%nat && (n <=? 32)%nat).

(** [s.lstrip()] *)
Fixpoint lstrip (s : string) : string :=
  match s with
  | EmptyString => EmptyString
  | String c s' => if is_space c then lstrip s' else s
  end.

(** [s[::-1]] *)
Definition reverse (s : string) : string :=
  string_of_list_ascii (rev (list_ascii_of_string s)).

(** [s.rstrip()] *)
Definition rstrip (s : string) : string := reverse (lstrip (reverse s)).

(** [s.strip()] *)
Definition strip (s : string) : string := rstrip (lstrip s).

(** [bool(s)]: a string is truthy when it is not empty. *)
Definition truthy (s : string) : bool :=
  match s with EmptyString => false | String _ _ => true end.

End PyStr.

(* ------------------------------------------------------------------------ *)
(** * config.py: the required keys *)

Module Config.
Import PyStr.
Local Open Scope string_scope.

(** The fields of [Config] that [validate] and [get_missing_keys] read. *)
Record t : Type := {
  AZURE_OPENAI_ENDPOINT : string;
  AZURE_OPENAI_API_KEY : string;
  TAVILY_API_KEY : string
}.

Definition required (self : t) : list string :=
  [ AZURE_OPENAI_ENDPOINT self; AZURE_OPENAI_API_KEY self;
    TAVILY_API_KEY self ].

(** [all(field.strip() for field in required if field)] *)
Definition validate (self : t) : bool :=
  forallb (fun field => truthy (strip field)) (filter truthy (required self)).

Definition get_missing_keys (self : t) : list string :=
  ((if negb (truthy (strip (AZURE_OPENAI_ENDPOINT self)))
    then ["AZURE_OPENAI_ENDPOINT"] else []) ++
   (if negb (truthy (strip (AZURE_OPENAI_API_KEY self)))
    then ["AZURE_OPENAI_API_KEY"] else []) ++
   (if negb (truthy (strip (TAVILY_API_KEY self)))
    then ["TAVILY_API_KEY"] else []))%list.

(** A string of blanks only: every character is white space. *)
Definition blank (s : string) : bool :=
  forallb is_space (list_ascii_of_string s).

End Config.

(* ------------------------------------------------------------------------ *)
(** * DocumentProcessor.chunk_text *)

Module Chunker.
Import PyStr.

(** The [while start < text_length] loop of [chunk_text]; one unit of fuel
    per test of the loop condition. *)
Fixpoint chunk_loop (fuel : nat) (text : string) (chunk_size overlap : Z)
         (start : Z) (chunks : list string) : option (list string) :=
  match fuel with
  | O => None
  | S fuel' =>
      if start <? Z.of_nat (String.length text) then
        let end_ := start + chunk_size in
        let chunk := slice text start end_ in
        chunk_loop fuel' text chunk_size overlap (end_ - overlap)
                   (chunks ++ [chunk])
      else Some chunks
  end.

(** [chunk_text(text, chunk_size, overlap)].  The fuel [len(text) + 1] is
    enough for every run that terminates, so [None] stands for a loop that
    never returns. *)
Definition chunk_text (text : string) (chunk_size overlap : Z)
  : option (list string) :=
  chunk_loop (S (String.length text)) text chunk_size overlap 0 [].

Definition default_chunk_size : Z := 1000.
Definition default_overlap : Z := 200.

(** Ceiling of the quotient [a / b], for a positive [b]. *)
Definition ceil_div (a b : Z) : Z := - ((- a) / b).

(** The chunk count the specification gives. *)
Definition spec_chunk_count (len chunk_size overlap : Z) : Z :=
  ceil_div (len - overlap) (chunk_size - overlap).

(** Every chunk without its leading [overlap] characters
    ([chunk[overlap:]]), joined. *)
Definition tails (overlap : Z) (chunks : list string) : string :=
  join (map (fun c => slice_from c overlap) chunks).

(** The chunks put together again: the first one as it is, every later one
    without its leading [overlap] characters. *)
Definition reassemble (overlap : Z) (chunks : list string) : string :=
  match chunks with
  | [] => EmptyString
  | first :: rest => String.append first (tails overlap rest)
  end.

(** The window number [i] of the text: [text[i*step : i*step + chunk_size]]
    with [step = chunk_size - overlap]. *)
Definition window (text : string) (chunk_size overlap : Z) (i : nat)
  : string :=
  slice text (Z.of_nat i * (chunk_size - overlap))
        (Z.of_nat i * (chunk_size - overlap) + chunk_size).

End Chunker.

(* ------------------------------------------------------------------------ *)
(** * numpy: argsort *)

Module Numpy.

Section Argsort.
Variable key : nat -> Q.

(** Insertion of an index into a list of indices sorted by [key]: it goes
    before the first index whose key is not smaller. *)
Fixpoint insert (i : nat) (l : list nat) : list nat :=
  match l with
  | [] => [i]
  | j :: l' => if Qle_bool (key i) (key j) then i :: j :: l'
               else j :: insert i l'
  end.

Fixpoint sort (l : list nat) : list nat :=
  match l with
  | [] => []
  | i :: l' => insert i (sort l')
  end.

(** The order of the sorted indices: by key, and among equal keys by
    index. *)
Definition before (i j : nat) : Prop :=
  (key i < key j)%Q \/ ((key i == key j)%Q /\ (i < j)%nat).
End Argsort.

(** [np.argsort(a)]: the indices of [a] in ascending order of their values.
    The default kind of numpy's sort is not a stable one: the order it gives
    to the indices of equal values is not specified and changes with the
    length of the array.  To evaluate examples that order is fixed here by
    an insertion sort; what is proved of the ranking does not rest on it
    (see [ascending_order]). *)
Definition argsort (a : list Q) : list nat :=
  sort (fun i => nth i a 0%Q) (seq 0 (List.length a)).

(** What [np.argsort] gives with every kind of sort: the indices of the
    array, each once, in ascending order of their values. *)
Definition ascending_order (order : list Q -> list nat) : Prop :=
  forall a : list Q,
    Permutation (order a) (seq 0 (List.length a)) /\
    StronglySorted (fun i j => (nth i a 0 <= nth j a 0)%Q) (order a).

End Numpy.

(* ------------------------------------------------------------------------ *)
(** * Outcomes of calls that can raise *)

Inductive exn : Type := ValueError | IndexError.

Inductive outcome (A : Type) : Type :=
| Returned (a : A)
| Raised (e : exn).
Arguments Returned {A} a.
Arguments Raised {A} e.

Definition bind_outcome {A B : Type} (m : outcome A) (k : A -> outcome B)
  : outcome B :=
  match m with
  | Returned a => k a
  | Raised e => Raised e
  end.

(* ------------------------------------------------------------------------ *)
(** * DocumentProcessor: text extraction *)

(** What the extraction methods read from: the file system and the libraries
    [PyPDF2] and [docx].  A reader gives [None] when the call raises (missing,
    corrupt or undecodable file).  [fetch_default_pdf] is the body of the [try]
    in [load_default_pdf]: the text of the downloaded annual report. *)
Class FileSystem : Type := {
  path_exists : string -> bool;
  read_pdf : string -> option string;
  read_docx : string -> option string;
  read_txt : string -> option string;
  fetch_default_pdf : option string
}.

Module DocumentProcessor.
Import PyStr.

Section WithFiles.
Context {FS : FileSystem}.

(** Each method catches every exception, logs it and returns [""]. *)
Definition or_empty (r : option string) : string :=
  match r with Some text => text | None => EmptyString end.

Definition load_default_pdf : string := or_empty fetch_default_pdf.
Definition extract_text_from_pdf (file_path : string) : string :=
  or_empty (read_pdf file_path).
Definition extract_text_from_docx (file_path : string) : string :=
  or_empty (read_docx file_path).
Definition extract_text_from_txt (file_path : string) : string :=
  or_empty (read_txt file_path).
End WithFiles.

(** [os.path.splitext(p)[1]] (posixpath): the extension starts at the last
    dot of the last path component, unless that component has nothing but
    dots before it. *)
Definition is_dot (c : ascii) : bool := Ascii.eqb c "."%char.

Definition splitext_ext (p : string) : string :=
  let sepIndex := rfind "/"%char p in
  let dotIndex := rfind "."%char p in
  if sepIndex <? dotIndex then
    if forallb is_dot
         (list_ascii_of_string (slice p (sepIndex + 1) dotIndex))
    then EmptyString
    else slice_from p dotIndex
  else EmptyString.

(** [os.path.basename(p)] (posixpath) *)
Definition basename (p : string) : string :=
  slice_from p (rfind "/"%char p + 1).

End DocumentProcessor.

(* ------------------------------------------------------------------------ *)
(** * VectorStore *)

(** The interface of [models.embeddings.AzureEmbeddingModel] that the store
    calls, together with [sklearn]'s cosine similarity of two vectors.
    [get_single_embedding] gives [None] when the provider has no vector for
    the text (a falsy return value).  The vectors of a provider all have its
    one dimension, so that [cosine] is defined on every pair of them; a
    similarity is a rational number, of which [search] uses the order
    only. *)
Class EmbeddingModel : Type := {
  embedding : Type;
  get_embeddings : list string -> list embedding;
  get_single_embedding : string -> option embedding;
  cosine : embedding -> embedding -> Q
}.

Module VectorStore.
Import PyStr Chunker DocumentProcessor.
Local Open Scope string_scope.

Record Metadata : Type := { file_type : string; is_default : bool }.

(** A stored chunk: the dict with keys content, source, chunk_id,
    metadata. *)
Record Document : Type := {
  content : string;
  source : string;
  chunk_id : nat;
  metadata : Metadata
}.

(** A search hit: the document's dict extended with the key similarity. *)
Record SearchResult : Type := {
  document : Document;
  similarity : Q
}.

(** A pickle file under [store_path]. *)
Inductive blob (A : Type) : Type :=
| Absent
| Unreadable
| Stored (x : A).
Arguments Absent {A}.
Arguments Unreadable {A}.
Arguments Stored {A} x.

(** The hit that [search] builds for the index [idx]; [d0] stands for a
    document the store does not hold at [idx]. *)
Definition hit (docs : list Document) (similarities : list Q)
           (d0 : Document) (idx : nat) : SearchResult :=
  {| document := nth idx docs d0;
     similarity := nth idx similarities 0%Q |}.

(** Ranked: the more similar index first, and of two equally similar
    indices the larger one first. *)
Definition ranked (similarities : list Q) (i j : nat) : Prop :=
  Numpy.before (fun idx => nth idx similarities 0%Q) j i.

(** [enumerate(l)] *)
Definition enumerate {A : Type} (l : list A) : list (nat * A) :=
  combine (seq 0 (List.length l)) l.

Definition default_source : string :=
  "Amazon-com-Inc-2023-Annual-Report.pdf".

Section WithModel.
Context {EM : EmbeddingModel} {FS : FileSystem}.

(** The two attributes [self.documents] and [self.embeddings]. *)
Record t : Type := {
  documents : list Document;
  embeddings : list embedding
}.

(** [documents.pkl] and [embeddings.pkl]. *)
Record Disk : Type := {
  documents_pkl : blob (list Document);
  embeddings_pkl : blob (list embedding)
}.

Definition empty : t := {| documents := []; embeddings := [] |}.

(** The invariant of the data model: as many embeddings as documents. *)
Definition balanced (self : t) : Prop :=
  List.length (documents self) = List.length (embeddings self).

(** A persisted pair that [load_store] turns into a balanced store: when
    the documents can be read, the embeddings can be read too and there
    are as many of them. *)
Definition consistent (disk : Disk) : Prop :=
  match documents_pkl disk with
  | Stored docs =>
      match embeddings_pkl disk with
      | Stored embs => List.length docs = List.length embs
      | _ => False
      end
  | _ => True
  end.

(** [load_store]: the documents are assigned as soon as they are read; an
    exception while opening or reading [embeddings.pkl] is logged and
    leaves [self.embeddings] as it was. *)
Definition load_store (self : t) (disk : Disk) : t :=
  match documents_pkl disk with
  | Absent => self
  | Unreadable => self
  | Stored docs =>
      match embeddings_pkl disk with
      | Stored embs => {| documents := docs; embeddings := embs |}
      | _ => {| documents := docs; embeddings := embeddings self |}
      end
  end.

(** How far [save_store] gets before an exception, which it logs. *)
Inductive save_outcome : Type :=
| SaveCompletes
| SaveFailsBetween
| SaveFailsAtOnce.

Definition save_store (self : t) (disk : Disk) (w : save_outcome) : Disk :=
  match w with
  | SaveCompletes =>
      {| documents_pkl := Stored (documents self);
         embeddings_pkl := Stored (embeddings self) |}
  | SaveFailsBetween =>
      {| documents_pkl := Stored (documents self);
         embeddings_pkl := embeddings_pkl disk |}
  | SaveFailsAtOnce => disk
  end.

(** The body of the [for doc, embedding in zip(...)] loop. *)
Definition append_pair (self : t) (p : Document * embedding) : t :=
  {| documents := documents self ++ [fst p];
     embeddings := embeddings self ++ [snd p] |}.

Definition add_documents (self : t) (disk : Disk) (w : save_outcome)
           (docs : list Document) : t * Disk :=
  let texts := map content docs in
  let embs := get_embeddings texts in
  let self' := fold_left append_pair (combine docs embs) self in
  (self', save_store self' disk w).

(** [cosine_similarity([query_embedding], self.embeddings)[0]]; sklearn
    raises a ValueError on an array with no rows. *)
Definition cosine_similarity (q : embedding) (embs : list embedding)
  : outcome (list Q) :=
  match embs with
  | [] => Raised ValueError
  | _ => Returned (map (cosine q) embs)
  end.

(** The loop that builds [results]; [self.documents[idx]] raises an
    IndexError when [idx] is out of range. *)
Fixpoint collect (docs : list Document) (similarities : list Q)
         (top_indices : list nat) (results : list SearchResult)
  : outcome (list SearchResult) :=
  match top_indices with
  | [] => Returned results
  | idx :: rest =>
      match nth_error docs idx with
      | None => Raised IndexError
      | Some d =>
          collect docs similarities rest
                  (results ++ [{| document := d;
                                  similarity := nth idx similarities 0%Q |}])
      end
  end.

Definition top_indices (similarities : list Q) (top_k : Z) : list nat :=
  list_slice_to (rev (Numpy.argsort similarities)) top_k.

Definition search (self : t) (query : string) (top_k : Z)
  : outcome (list SearchResult) :=
  match documents self with
  | [] => Returned []
  | _ =>
      match get_single_embedding query with
      | None => Returned []
      | Some query_embedding =>
          bind_outcome (cosine_similarity query_embedding (embeddings self))
            (fun similarities =>
               collect (documents self) similarities
                       (top_indices similarities top_k) [])
      end
  end.

(** [search] with the index sort that stands for [np.argsort] as a
    parameter; [search] is [search_by Numpy.argsort]. *)
Definition top_indices_by (order : list Q -> list nat)
           (similarities : list Q) (top_k : Z) : list nat :=
  list_slice_to (rev (order similarities)) top_k.

Definition search_by (order : list Q -> list nat) (self : t)
           (query : string) (top_k : Z) : outcome (list SearchResult) :=
  match documents self with
  | [] => Returned []
  | _ =>
      match get_single_embedding query with
      | None => Returned []
      | Some query_embedding =>
          bind_outcome (cosine_similarity query_embedding (embeddings self))
            (fun similarities =>
               collect (documents self) similarities
                       (top_indices_by order similarities top_k) [])
      end
  end.

Definition default_chunk (ic : nat * string) : Document :=
  {| content := snd ic;
     source := default_source;
     chunk_id := fst ic;
     metadata := {| file_type := "pdf"; is_default := true |} |}.

(** [VectorStore.initialize_with_default] *)
Definition initialize_with_default (self : t) (disk : Disk)
           (w : save_outcome) : option (t * Disk) :=
  let default_text := load_default_pdf in
  if truthy default_text then
    match chunk_text default_text default_chunk_size default_overlap with
    | None => None
    | Some chunks =>
        Some (add_documents self disk w
                            (map default_chunk (enumerate chunks)))
    end
  else Some (self, disk).

(** [VectorStore.__init__] *)
Definition init (disk : Disk) (w : save_outcome)
  : option (t * Disk) :=
  let self := load_store empty disk in
  match documents self with
  | [] => initialize_with_default self disk w
  | _ => Some (self, disk)
  end.


(** The states of a store built from the persisted pair [disk0]: the one
    [init] gives, and every one that [add_documents] makes from it.
    [search] assigns to no attribute, so it makes no new state. *)
Inductive reachable (disk0 : Disk) : t -> Disk -> Prop :=
| reach_init (w : save_outcome) (self : t) (disk : Disk) :
    init disk0 w = Some (self, disk) ->
    reachable disk0 self disk
| reach_add (self : t) (disk : Disk) (w : save_outcome)
            (docs : list Document) :
    reachable disk0 self disk ->
    reachable disk0 (fst (add_documents self disk w docs))
              (snd (add_documents self disk w docs)).

End WithModel.
End VectorStore.

(* ------------------------------------------------------------------------ *)
(** * RAGSystem *)

Module RAGSystem.
Import PyStr Chunker VectorStore DocumentProcessor.
Local Open Scope string_scope.

(** The keywords of [financial_keywords] that are written in lower case. *)
Definition lowercase_financial_keywords : list string :=
  [ "revenue"; "income"; "profit"; "segment"; "growth";
    "earnings"; "cash flow"; "operating"; "margin";
    "investment"; "shareholder"; "dividend"; "stock"; "forecast";
    "guidance"; "financial"; "metrics"; "quarterly"; "annual" ].

Definition financial_keywords : list string :=
  [ "revenue"; "income"; "profit"; "AWS"; "segment"; "growth";
    "earnings"; "EBITDA"; "cash flow"; "operating"; "margin";
    "investment"; "shareholder"; "dividend"; "stock"; "forecast";
    "guidance"; "financial"; "metrics"; "quarterly"; "annual" ].

(** [any(keyword in text for keyword in keywords)] *)
Definition any_in (keywords : list string) (text : string) : bool :=
  existsb (fun keyword => contains keyword text) keywords.

(** The matching the specification describes: some keyword occurs in the
    text when the case of letters is ignored on both sides. *)
Definition spec_matches (keywords : list string) (text : string) : bool :=
  existsb (fun keyword => contains (lower keyword) (lower text)) keywords.

Section WithServices.
Context {EM : EmbeddingModel} {FS : FileSystem}.

(** The [if]/[elif] chain on the extension; [None] is the final [else],
    which skips the file. *)
Definition extract_by_ext (file_ext file_path : string) : option string :=
  if String.eqb file_ext ".pdf" then Some (extract_text_from_pdf file_path)
  else if String.eqb file_ext ".docx"
       then Some (extract_text_from_docx file_path)
  else if String.eqb file_ext ".txt"
       then Some (extract_text_from_txt file_path)
  else None.

Definition uploaded_chunk (file_path file_ext : string)
           (ic : nat * string) : Document :=
  {| content := snd ic;
     source := file_path;
     chunk_id := fst ic;
     metadata := {| file_type := file_ext; is_default := false |} |}.

(** The [for file_path in file_paths] loop; [None] only if a call of
    [chunk_text] never returns. *)
Fixpoint process_files (file_paths : list string)
         (documents : list Document) : option (list Document) :=
  match file_paths with
  | [] => Some documents
  | file_path :: rest =>
      if negb (path_exists file_path) then process_files rest documents
      else
        let file_ext := lower (splitext_ext file_path) in
        match extract_by_ext file_ext file_path with
        | None => process_files rest documents
        | Some text =>
            match chunk_text text default_chunk_size default_overlap with
            | None => None
            | Some chunks =>
                process_files rest
                  (documents ++
                   map (uploaded_chunk file_path file_ext)
                       (enumerate chunks))
            end
        end
  end.

(** The text of a file that is processed with success: the file exists,
    its extension is one of the three, and its reader does not fail. *)
Definition extracted (file_path : string) : option string :=
  if path_exists file_path then
    let file_ext := lower (splitext_ext file_path) in
    if String.eqb file_ext ".pdf" then read_pdf file_path
    else if String.eqb file_ext ".docx" then read_docx file_path
    else if String.eqb file_ext ".txt" then read_txt file_path
    else None
  else None.

(** The number of chunks of a text under the default parameters. *)
Definition chunk_count (text : string) : nat :=
  Z.to_nat (ceil_div (Z.of_nat (String.length text))
                     (default_chunk_size - default_overlap)).

(** The chunks of the files of a batch that are processed with
    success. *)
Definition ingested_count (file_paths : list string) : nat :=
  list_sum (map (fun p => match extracted p with
                          | Some text => chunk_count text
                          | None => 0%nat
                          end) file_paths).

(** What holds of every document made from the files of a batch. *)
Definition from_batch (file_paths : list string) (d : Document) : Prop :=
  In (source d) file_paths /\
  path_exists (source d) = true /\
  file_type (metadata d) = lower (splitext_ext (source d)) /\
  In (file_type (metadata d)) [".pdf"; ".docx"; ".txt"] /\
  is_default (metadata d) = false.

(** [process_and_store_documents]: the new store and disk, and the
    returned [len(documents)]. *)
Definition process_and_store_documents (store : VectorStore.t)
           (disk : Disk) (w : save_outcome) (file_paths : list string)
  : option (VectorStore.t * Disk * nat) :=
  match process_files file_paths [] with
  | None => None
  | Some documents =>
      let '(store', disk') := add_documents store disk w documents in
      Some (store', disk', List.length documents)
  end.

Definition context_header : string :=
  "Relevant information from documents:

".

(** One turn of the loop that formats the results. *)
Definition format_result (context : string) (ir : nat * SearchResult)
  : string :=
  let source_name := basename (source (document (snd ir))) in
  context
    ++ ("Source " ++ str_of_nat (fst ir) ++ " (from " ++ source_name ++ "):
")
    ++ (content (document (snd ir)) ++ "

").

(** [enumerate(results, 1)] *)
Definition enumerate_from1 {A : Type} (l : list A) : list (nat * A) :=
  combine (seq 1 (List.length l)) l.

Definition retrieve_relevant_context (store : VectorStore.t)
           (query : string) (top_k : Z) : outcome (string * bool) :=
  bind_outcome (search store query top_k)
    (fun results =>
       match results with
       | [] => Returned ("", false)
       | _ =>
           let is_financial := any_in financial_keywords (lower query) in
           let context :=
             fold_left format_result (enumerate_from1 results)
                       context_header in
           Returned (context, is_financial)
       end).

End WithServices.
End RAGSystem.

(* ------------------------------------------------------------------------ *)
(** * WebSearchTool *)

Module WebSearchTool.
Import PyStr.
Local Open Scope string_scope.

(** One entry of the response's "results"; a key may be missing. *)
Record WebResult : Type := {
  title : option string;
  url : option string;
  content : option string
}.

Record SearchResponse : Type := {
  results : list WebResult;
  answer : option string
}.

(** [dict.get(key, default)] *)
Definition get_or (field : option string) (default : string) : string :=
  match field with Some v => v | None => default end.

Definition format_one (formatted : string) (ir : nat * WebResult) : string :=
  formatted
    ++ ("Source " ++ str_of_nat (fst ir) ++ ":
")
    ++ ("Title: " ++ get_or (title (snd ir)) "N/A" ++ "
")
    ++ ("URL: " ++ get_or (url (snd ir)) "N/A" ++ "
")
    ++ ("Content: " ++ slice (get_or (content (snd ir)) "N/A") 0 500 ++ "...

").

Definition format_search_results (search_results : SearchResponse) : string :=
  match results search_results with
  | [] => "No relevant financial information found."
  | rs =>
      let formatted :=
        fold_left format_one (combine (seq 1 (List.length rs)) rs)
                  "Financial web search results:

" in
      match answer search_results with
      | Some a =>
          if truthy a then formatted ++ ("Quick Answer: " ++ a ++ "
")
          else formatted
      | None => formatted
      end
  end.

End WebSearchTool.

(** The remote capabilities of a turn: the Tavily client ([None] when the
    call raises) and the language model behind
    [models.llm.AzureOpenAIModel.generate_response].  The model is taken to
    answer: a failure of that call is not modelled, so what is proved of a
    turn is proved of a turn in which the model answers, and nothing is
    stated about the turns that fail there. *)
Record Message : Type := { role : string; message_content : string }.

Class Remote : Type := {
  tavily_search : string -> nat -> option WebSearchTool.SearchResponse;
  llm_generate : list Message -> string -> Z -> Q -> string
}.

(* ------------------------------------------------------------------------ *)
(** * app_original.py: the orchestrator *)

Module App.
Import PyStr VectorStore RAGSystem WebSearchTool.
Local Open Scope string_scope.

Definition web_search_indicators : list string :=
  [ "latest"; "recent"; "current"; "news"; "today"; "2024"; "2025";
    "what's happening"; "breaking"; "update"; "trend"; "stock price";
    "analyst"; "rating"; "target price"; "Q1"; "Q2"; "Q3"; "Q4" ].

(** The indicators of [web_search_indicators] that are written in lower
    case. *)
Definition lowercase_indicators : list string :=
  [ "latest"; "recent"; "current"; "news"; "today"; "2024"; "2025";
    "what's happening"; "breaking"; "update"; "trend"; "stock price";
    "analyst"; "rating"; "target price" ].

Definition should_use_web_search (prompt : string) : bool :=
  any_in web_search_indicators (lower prompt).

(** [config.CONCISE_MAX_TOKENS] and [config.DETAILED_MAX_TOKENS], at their
    defaults. *)
Definition CONCISE_MAX_TOKENS : Z := 150.
Definition DETAILED_MAX_TOKENS : Z := 1000.

(** The UTF-8 bytes of the two pictographs that start a source label. *)
Definition utf8 (bytes : list nat) : string :=
  string_of_list_ascii (map ascii_of_nat bytes).
Definition page_icon : string := utf8 [240; 159; 147; 132]%nat.
Definition globe_icon : string := utf8 [240; 159; 140; 144]%nat.

Definition web_source (result : WebResult) : string :=
  globe_icon ++ " " ++ get_or (title result) "Financial Source".

Definition system_prompt_of (response_mode context : string) : string :=
  "You are an AI Financial Research Assistant specializing in Amazon investor relations and financial analysis.

When answering financial questions:
1. Be precise with numbers and metrics
2. Compare year-over-year changes when relevant
3. Explain financial terms if needed
4. Highlight important trends
5. Always cite your sources

Response Mode: " ++ response_mode ++ "
- Concise: Focus on key numbers and brief explanations
- Detailed: Include full context, comparisons, and analysis

Available Context:
" ++ (if truthy context then context
    else "No specific context available. I'll answer based on general knowledge.")
++ "
".

(** A call to a remote capability made during the turn. *)
Inductive call : Type :=
| WebSearch (query : string)
| Generate (max_tokens : Z).

(** The local variables of [generate_response], with the calls made so
    far. *)
Record locals : Type := {
  context : string;
  sources : list string;
  needs_web_search : bool;
  calls : list call
}.

(** The returned pair, with the calls the turn made. *)
Record turn : Type := {
  response : string;
  turn_sources : list string;
  turn_calls : list call
}.

Section WithServices.
Context {EM : EmbeddingModel} {RM : Remote}.

(** [WebSearchTool.search]: an exception gives an empty result list. *)
Definition web_search (query : string) : SearchResponse :=
  match tavily_search query 3 with
  | Some r => r
  | None => {| results := []; answer := None |}
  end.

(** The block [if use_rag: ...]. *)
Definition rag_step (store : VectorStore.t) (prompt : string)
           (use_rag : bool) (l : locals) : outcome locals :=
  if use_rag then
    bind_outcome (retrieve_relevant_context store prompt 3)
      (fun r =>
         let rag_context := fst r in
         let is_financial := snd r in
         let l1 :=
           if truthy rag_context then
             {| context := context l ++ rag_context;
                sources :=
                  (sources l ++
                   [ if contains default_source rag_context
                     then (page_icon ++ " Amazon 2023 Annual Report")%string
                     else (page_icon ++ " Uploaded Documents")%string ])%list;
                needs_web_search := needs_web_search l;
                calls := calls l |}
           else l in
         Returned
           (if is_financial && negb (truthy rag_context) then
              {| context := context l1;
                 sources := sources l1;
                 needs_web_search := true;
                 calls := calls l1 |}
            else l1))
  else Returned l.

(** The block [if use_web_search and (...): ...]. *)
Definition web_step (prompt : string) (use_web_search : bool) (l : locals)
  : locals :=
  if use_web_search && (needs_web_search l || should_use_web_search prompt)
  then
    let search_results := web_search prompt in
    let web_context := format_search_results search_results in
    {| context := context l ++ "
" ++ web_context;
       sources :=
         (sources l ++
          map web_source (list_slice_to (results search_results) 3))%list;
       needs_web_search := needs_web_search l;
       calls := (calls l ++ [WebSearch prompt])%list |}
  else l.

Definition generate_response (store : VectorStore.t)
           (history : list Message)
           (prompt response_mode : string) (use_rag use_web_search : bool)
  : outcome turn :=
  let l0 := {| context := ""; sources := [];
               needs_web_search := false; calls := [] |} in
  bind_outcome (rag_step store prompt use_rag l0)
    (fun l1 =>
       let l2 := web_step prompt use_web_search l1 in
       let system_prompt := system_prompt_of response_mode (context l2) in
       let messages :=
         (history ++ [{| role := "user"; message_content := prompt |}])%list
       in
       let max_tokens :=
         if String.eqb response_mode "Concise" then CONCISE_MAX_TOKENS
         else DETAILED_MAX_TOKENS in
       Returned
         {| response :=
              llm_generate messages system_prompt max_tokens (7 # 10)%Q;
            turn_sources := sources l2;
            turn_calls := (calls l2 ++ [Generate max_tokens])%list |}).

(** Whether the turn called the web search. *)
Definition searched_web (t : turn) : bool :=
  existsb (fun c => match c with WebSearch _ => true | _ => false end)
          (turn_calls t).

End WithServices.
End App.

(* ------------------------------------------------------------------------ *)
(** * A small provider and file system for examples *)

Module Fixture.
Import VectorStore.
Local Open Scope string_scope.

(** Dot product; on vectors of length one it is their cosine. *)
Definition dot (u v : list Q) : Q :=
  fold_right Qplus 0%Q (map (fun p => (fst p * snd p)%Q) (combine u v)).

Definition table : list (string * list Q) :=
  [ ("north", [1; 0]); ("also north", [1; 0]); ("east", [0; 1]);
    ("north-east", [3 # 5; 4 # 5]); ("which way is north?", [1; 0]);
    ("What was AWS revenue growth?", [1; 0]);
    ("What is the weather today?", [0; 1]);
    ("latest stock price", [1; 0]);
    ("Summarize the document", [0; 1]);
    ("AWS EBITDA", [1; 0]);
    ("Q1 results", [1; 0]) ]%Q.

Fixpoint lookup (text : string) (t : list (string * list Q))
  : option (list Q) :=
  match t with
  | [] => None
  | (key, v) :: t' => if String.eqb key text then Some v else lookup text t'
  end.

(** Texts outside the table have no embedding; a batch leaves them out. *)
#[export] Instance provider : EmbeddingModel := {|
  embedding := list Q;
  get_embeddings := fun texts =>
    flat_map (fun text => match lookup text table with
                          | Some v => [v]
                          | None => []
                          end) texts;
  get_single_embedding := fun text => lookup text table;
  cosine := dot
|}.

(** Three uploaded files, the second of which cannot be parsed. *)
#[export] Instance files : FileSystem := {|
  path_exists := fun p =>
    existsb (String.eqb p) ["a.txt"; "broken.pdf"; "notes/b.TXT"];
  read_pdf := fun _ => None;
  read_docx := fun _ => None;
  read_txt := fun p =>
    if String.eqb p "a.txt" then Some "north"
    else if String.eqb p "notes/b.TXT" then Some "east"
    else None;
  fetch_default_pdf := None
|}.

Definition chunk (text : string) (i : nat) : Document :=
  {| content := text; source := "compass.txt"; chunk_id := i;
     metadata := {| file_type := ".txt"; is_default := false |} |}.

(** Two chunks with the same embedding, then a third one. *)
Definition compass : VectorStore.t :=
  {| documents := [chunk "north" 0; chunk "also north" 1; chunk "east" 2];
     embeddings := [[1; 0]; [1; 0]; [0; 1]]%Q |}.

(** A store with one document and two embeddings. *)
Definition lopsided : VectorStore.t :=
  {| documents := [chunk "north" 0];
     embeddings := [[1; 0]; [0; 1]]%Q |}.

(** A persisted pair of one chunk and its embedding. *)
Definition saved : Disk :=
  {| documents_pkl := Stored [chunk "north" 0];
     embeddings_pkl := Stored [[1; 0]]%Q |}.

(** A persisted pair whose second file is missing. *)
Definition half_saved : Disk :=
  {| documents_pkl := Stored [chunk "north" 0];
     embeddings_pkl := Absent |}.

Definition blank : Disk :=
  {| documents_pkl := Absent; embeddings_pkl := Absent |}.

(** A web search that finds one page, and a model that answers "ok". *)
#[export] Instance remote : Remote := {|
  tavily_search := fun _ _ =>
    Some {| WebSearchTool.results :=
              [ {| WebSearchTool.title := Some "Quarterly results";
                   WebSearchTool.url := Some "https://investor.example";
                   WebSearchTool.content := Some "Net sales increased." |} ];
            WebSearchTool.answer := None |};
  llm_generate := fun _ _ _ _ => "ok"
|}.

(** A search client that always fails. *)
Definition offline : Remote := {|
  tavily_search := fun _ _ => None;
  llm_generate := fun _ system_prompt _ _ => system_prompt
|}.

(** The turn a call returns, or an empty one when it raises. *)
Definition returned_turn (o : outcome App.turn) : App.turn :=
  match o with
  | Returned t => t
  | Raised _ =>
      {| App.response := ""; App.turn_sources := []; App.turn_calls := [] |}
  end.

(** A turn on the prompt "latest news", without retrieval. *)
Definition news_turn : App.turn :=
  returned_turn
    (App.generate_response empty [] "latest news" "Concise" false true).


(** A store whose only document comes from the default report. *)
Definition seeded : VectorStore.t :=
  {| documents :=
       [ {| content := "Net sales";
            source := default_source;
            chunk_id := 0;
            metadata := {| file_type := "pdf"; is_default := true |} |} ];
     embeddings := [[1; 0]]%Q |}.

(** A provider with one vector for every text. *)
Definition uniform : EmbeddingModel := {|
  embedding := list Q;
  get_embeddings := map (fun _ => [1; 0]%Q);
  get_single_embedding := fun _ => Some [1; 0]%Q;
  cosine := dot
|}.

Fixpoint repeat_string (s : string) (n : nat) : string :=
  match n with
  | O => ""
  | S n' => s ++ repeat_string s n'
  end.

(** A report of 1500 characters. *)
Definition report_text : string := repeat_string "Annual report. " 100.

(** Nothing persisted, for the provider [uniform]. *)
Definition fresh : @Disk uniform :=
  {| documents_pkl := Absent; embeddings_pkl := Absent |}.

(** A file system on which the download of the default report succeeds. *)
Definition online : FileSystem := {|
  path_exists := fun _ => false;
  read_pdf := fun _ => None;
  read_docx := fun _ => None;
  read_txt := fun _ => None;
  fetch_default_pdf := Some report_text
|}.

End Fixture.

(* ======================================================================== *)
(** * Properties *)

(* ------------------------------------------------------------------------ *)
(** ** Strings as lists of characters *)

Module PyStrFacts.
Import PyStr.

Abbreviation chars := list_ascii_of_string.

Lemma chars_inj (a b : string) : chars a = chars b -> a = b.
Proof.
  intros H.
  rewrite <- (string_of_list_ascii_of_string a),
          <- (string_of_list_ascii_of_string b).
  now rewrite H.
Qed.

Lemma chars_length (s : string) : List.length (chars s) = String.length s.
Proof. induction s; simpl; congruence. Qed.

Lemma chars_append (a b : string) :
  chars (String.append a b) = (chars a ++ chars b)%list.
Proof. induction a; simpl; congruence. Qed.

Lemma chars_substring (n m : nat) (s : string) :
  chars (substring n m s) = firstn m (skipn n (chars s)).
Proof.
  revert n m; induction s as [|c s IH]; intros n m.
  - destruct n, m; reflexivity.
  - destruct n as [|n].
    + destruct m as [|m]; simpl; [reflexivity|].
      now rewrite (IH 0%nat m).
    + simpl. apply IH.
Qed.

Lemma chars_join (parts : list string) :
  chars (join parts) = List.concat (map chars parts).
Proof.
  induction parts as [|p ps IH]; simpl; [reflexivity|].
  now rewrite chars_append, IH.
Qed.

(** A slice with bounds inside the string. *)
Lemma chars_slice (s : string) (start stop : Z) :
  0 <= start ->
  0 <= stop ->
  chars (slice s start stop) =
  firstn (Z.to_nat (Z.min stop (Z.of_nat (String.length s))) -
          Z.to_nat (Z.min start (Z.of_nat (String.length s))))
         (skipn (Z.to_nat (Z.min start (Z.of_nat (String.length s))))
                (chars s)).
Proof.
  intros Hs He. unfold slice, slice_bound.
  destruct (Z.ltb_spec start 0); [lia|].
  destruct (Z.ltb_spec stop 0); [lia|].
  rewrite chars_substring. f_equal. lia.
Qed.

Lemma chars_slice_from (s : string) (start : Z) :
  0 <= start ->
  chars (slice_from s start) = skipn (Z.to_nat start) (chars s).
Proof.
  intros Hs. unfold slice_from. rewrite chars_slice by lia.
  rewrite Z.min_id.
  destruct (Z.le_gt_cases start (Z.of_nat (String.length s))) as [Hle|Hgt].
  - rewrite Z.min_l by lia.
    apply firstn_all2. rewrite length_skipn, chars_length. lia.
  - rewrite Z.min_r by lia.
    rewrite !skipn_all2 by (rewrite chars_length; lia).
    now rewrite firstn_nil.
Qed.

Lemma truthy_length (s : string) :
  truthy s = true <-> (0 < String.length s)%nat.
Proof. destruct s; simpl; split; intros; (lia || congruence). Qed.

End PyStrFacts.

(* ------------------------------------------------------------------------ *)
(** ** Chunking *)

Module ChunkerFacts.
Import PyStr Chunker PyStrFacts.

(** *** The ceiling quotient *)

Lemma ceil_div_bounds (a b : Z) :
  0 < b -> (ceil_div a b - 1) * b < a <= ceil_div a b * b.
Proof.
  intros Hb. unfold ceil_div.
  pose proof (Z.div_mod (- a) b ltac:(lia)) as E.
  pose proof (Z.mod_pos_bound (- a) b Hb) as M.
  nia.
Qed.

Lemma ceil_div_unique (a b n : Z) :
  0 < b -> (n - 1) * b < a <= n * b -> ceil_div a b = n.
Proof.
  intros Hb Hn. pose proof (ceil_div_bounds a Hb) as Hc.
  destruct (Z.lt_trichotomy (ceil_div a b) n) as [Hlt|[Heq|Hgt]];
    [exfalso|assumption|exfalso].
  - assert (ceil_div a b * b <= (n - 1) * b)
      by (apply Z.mul_le_mono_nonneg_r; lia).
    lia.
  - assert (n * b <= (ceil_div a b - 1) * b)
      by (apply Z.mul_le_mono_nonneg_r; lia).
    lia.
Qed.

Lemma ceil_div_0 (b : Z) : 0 < b -> ceil_div 0 b = 0.
Proof. intros; apply ceil_div_unique; lia. Qed.

Lemma ceil_div_step (a b : Z) :
  0 < b -> 0 < a -> ceil_div a b = 1 + ceil_div (Z.max 0 (a - b)) b.
Proof.
  intros Hb Ha.
  pose proof (ceil_div_bounds (Z.max 0 (a - b)) Hb).
  apply ceil_div_unique; [assumption|].
  destruct (Z.max_spec 0 (a - b)) as [[Hm E]|[Hm E]]; rewrite E in *.
  - nia.
  - rewrite ceil_div_0 by assumption. lia.
Qed.

(** *** The loop *)

(** The chunks collected so far are only ever extended. *)
Lemma chunk_loop_acc (fuel : nat) (text : string) (cs ov start : Z)
      (acc : list string) :
  chunk_loop fuel text cs ov start acc =
  option_map (app acc) (chunk_loop fuel text cs ov start []).
Proof.
  revert start acc; induction fuel as [|fuel IH]; intros start acc.
  - reflexivity.
  - simpl. destruct (start <? Z.of_nat (String.length text)).
    + rewrite IH. rewrite (IH _ [slice text start (start + cs)]).
      destruct (chunk_loop fuel text cs ov (start + cs - ov) []); simpl.
      * now rewrite <- app_assoc.
      * reflexivity.
    + simpl. now rewrite app_nil_r.
Qed.

Lemma chunk_loop_unfold (fuel : nat) (text : string) (cs ov start : Z) :
  chunk_loop (S fuel) text cs ov start [] =
  if start <? Z.of_nat (String.length text) then
    option_map (cons (slice text start (start + cs)))
               (chunk_loop fuel text cs ov (start + cs - ov) [])
  else Some [].
Proof.
  simpl. destruct (start <? Z.of_nat (String.length text)); [|reflexivity].
  now rewrite chunk_loop_acc.
Qed.

(** More fuel does not change a result. *)
Lemma chunk_loop_fuel_mono (fuel fuel' : nat) (text : string)
      (cs ov start : Z) (acc r : list string) :
  (fuel <= fuel')%nat ->
  chunk_loop fuel text cs ov start acc = Some r ->
  chunk_loop fuel' text cs ov start acc = Some r.
Proof.
  revert fuel' start acc; induction fuel as [|fuel IH];
    intros fuel' start acc Hle H; [discriminate|].
  destruct fuel' as [|fuel']; [lia|].
  simpl in *. destruct (start <? Z.of_nat (String.length text)).
  - apply IH; [lia|assumption].
  - assumption.
Qed.

(** With [overlap >= chunk_size] the window never moves forward, and on a
    text that is not empty the loop goes on for ever. *)
Lemma chunk_loop_stuck (fuel : nat) (text : string) (cs ov start : Z)
      (acc : list string) :
  cs <= ov ->
  start < Z.of_nat (String.length text) ->
  chunk_loop fuel text cs ov start acc = None.
Proof.
  intros Hle. revert start acc; induction fuel as [|fuel IH];
    intros start acc Hlt; [reflexivity|].
  simpl. destruct (Z.ltb_spec start (Z.of_nat (String.length text))); [|lia].
  apply IH. lia.
Qed.

(** What the loop computes from a position [start], when the window moves
    forward: it returns; the number of chunks is the ceiling of the rest of
    the text over the step; and the chunks without their first [ov]
    characters are the text from [start + ov] on. *)
Lemma chunk_loop_spec (text : string) (cs ov : Z) :
  ov < cs -> 0 <= ov ->
  forall (fuel : nat) (start : Z),
    0 <= start ->
    Z.max 0 (Z.of_nat (String.length text) - start) < Z.of_nat fuel ->
    exists chunks,
      chunk_loop fuel text cs ov start [] = Some chunks /\
      Z.of_nat (List.length chunks) =
        ceil_div (Z.max 0 (Z.of_nat (String.length text) - start))
                 (cs - ov) /\
      chars (tails ov chunks) =
        skipn (Z.to_nat (Z.min (start + ov)
                               (Z.of_nat (String.length text))))
              (chars text).
Proof.
  intros Hlt Hov. set (L := Z.of_nat (String.length text)).
  induction fuel as [|fuel IH]; intros start Hs Hf.
  - exists []. lia.
  - rewrite chunk_loop_unfold. fold L.
    destruct (Z.ltb_spec start L) as [Hin|Hout].
    + destruct (IH (start + cs - ov)) as (rest & E & Hn & Hc); [lia|lia|].
      rewrite E. exists (slice text start (start + cs) :: rest).
      split; [reflexivity|]. split.
      * cbn [List.length]. rewrite Nat2Z.inj_succ, Hn.
        rewrite (@ceil_div_step (Z.max 0 (L - start)) (cs - ov)) by lia.
        replace (Z.max 0 (Z.max 0 (L - start) - (cs - ov)))
          with (Z.max 0 (L - (start + cs - ov))) by lia.
        lia.
      * unfold tails in *. cbn [map join fold_right].
        rewrite chars_append. fold (join (map (fun c => slice_from c ov) rest)).
        rewrite Hc. rewrite chars_slice_from by lia.
        rewrite chars_slice by lia. fold L.
        rewrite skipn_firstn_comm, skipn_skipn.
        replace (start + cs - ov + ov) with (start + cs) by lia.
        destruct (Z.le_gt_cases (start + ov) (Z.min (start + cs) L))
          as [Hle|Hgt].
        -- replace (skipn (Z.to_nat (Z.min (start + cs) L)) (chars text))
             with (skipn (Z.to_nat (Z.min (start + cs) L) -
                          Z.to_nat (Z.min start L) - Z.to_nat ov)
                         (skipn (Z.to_nat ov + Z.to_nat (Z.min start L))
                                (chars text))).
           ++ rewrite firstn_skipn. f_equal. lia.
           ++ rewrite skipn_skipn. f_equal. lia.
        -- rewrite !skipn_all2 by (rewrite chars_length; fold L; lia).
           now rewrite firstn_nil.
    + exists []. split; [reflexivity|]. split.
      * cbn [List.length]. rewrite Z.max_l by lia.
        now rewrite ceil_div_0 by lia.
      * cbn. rewrite skipn_all2; [reflexivity|].
        rewrite chars_length. fold L. lia.
Qed.

(** When the window moves forward the loop returns, from any position. *)
Lemma chunk_loop_returns (text : string) (cs ov : Z) :
  ov < cs ->
  forall (fuel : nat) (start : Z) (acc : list string),
    Z.max 0 (Z.of_nat (String.length text) - start) < Z.of_nat fuel ->
    exists chunks, chunk_loop fuel text cs ov start acc = Some chunks.
Proof.
  intros Hlt. induction fuel as [|fuel IH]; intros start acc Hf; [lia|].
  simpl. destruct (Z.ltb_spec start (Z.of_nat (String.length text))).
  - apply IH. lia.
  - now exists acc.
Qed.

Lemma length_0_empty (s : string) : String.length s = 0%nat -> s = EmptyString.
Proof. destruct s; [reflexivity|discriminate]. Qed.

(** ** The claims on chunking *)

Local Open Scope string_scope.

(** C2, as stated, fails: a five-character text cut with chunk size 4 and
    overlap 2 gives three chunks (windows start at 0, 2 and 4), while the
    formula [ceil((len - overlap) / (chunk_size - overlap))] gives two. *)
Lemma chunk_count_formula_counterexample :
  chunk_text "abcde" 4 2 = Some ["abcd"; "cde"; "e"] /\
  Z.of_nat (List.length ["abcd"; "cde"; "e"]) <>
  spec_chunk_count (Z.of_nat (String.length "abcde")) 4 2.
Proof. split; [reflexivity|]. vm_compute. discriminate. Qed.

(** C2, amended: for every text and every [chunk_size > overlap >= 0],
    [chunk_text] returns, the number of chunks is
    [ceil(len(text) / (chunk_size - overlap))], and the empty text gives no
    chunk. *)
Theorem chunk_text_count (text : string) (chunk_size overlap : Z) :
  overlap < chunk_size ->
  0 <= overlap ->
  exists chunks,
    chunk_text text chunk_size overlap = Some chunks /\
    Z.of_nat (List.length chunks) =
      ceil_div (Z.of_nat (String.length text)) (chunk_size - overlap) /\
    (text = "" -> chunks = []).
Proof.
  intros Hlt Hov.
  destruct (@chunk_loop_spec text chunk_size overlap Hlt Hov
              (S (String.length text)) 0) as (chunks & E & Hn & _);
    [lia|lia|].
  exists chunks. split; [exact E|]. split.
  - rewrite Hn. f_equal. lia.
  - intros ->. now inversion E.
Qed.

Lemma chunk_text_count_witness :
  exists chunks,
    chunk_text "abcde" 4 2 = Some chunks /\
    Z.of_nat (List.length chunks) =
      ceil_div (Z.of_nat (String.length "abcde")) (4 - 2) /\
    ("abcde" = "" -> chunks = []).
Proof. apply (@chunk_text_count "abcde" 4 2); lia. Defined.

(** C3: for every text and every [chunk_size > overlap >= 0], [chunk_text]
    returns chunks which, joined after the first [overlap] characters of
    every chunk but the first are removed, are the text again. *)
Theorem chunk_text_reassemble (text : string) (chunk_size overlap : Z) :
  overlap < chunk_size ->
  0 <= overlap ->
  exists chunks,
    chunk_text text chunk_size overlap = Some chunks /\
    reassemble overlap chunks = text.
Proof.
  intros Hlt Hov. unfold chunk_text. rewrite chunk_loop_unfold.
  set (L := Z.of_nat (String.length text)).
  destruct (Z.ltb_spec 0 L) as [Hpos|Hzero].
  - destruct (@chunk_loop_spec text chunk_size overlap Hlt Hov
                (String.length text) (0 + chunk_size - overlap))
      as (rest & E & _ & Hc); [lia|fold L; lia|].
    rewrite E. eexists. split; [reflexivity|].
    apply chars_inj. unfold reassemble. rewrite chars_append.
    rewrite Hc, chars_slice by lia. fold L.
    replace (0 + chunk_size - overlap + overlap) with (0 + chunk_size)
      by lia.
    rewrite (Z.min_l 0 L) by lia. cbn [Z.to_nat skipn].
    rewrite Nat.sub_0_r. apply firstn_skipn.
  - exists []. split; [reflexivity|].
    symmetry. apply length_0_empty. lia.
Qed.

Lemma chunk_text_reassemble_witness :
  exists chunks,
    chunk_text "abcdefg" 4 2 = Some chunks /\
    reassemble 2 chunks = "abcdefg".
Proof. apply (@chunk_text_reassemble "abcdefg" 4 2); lia. Defined.

(** C7, as stated, fails: nothing guards [overlap >= chunk_size].  On the
    text "a" with chunk size 1 and overlap 1 the window stays at 0 and no
    amount of fuel lets the loop return. *)
Lemma chunk_text_unguarded_counterexample :
  ~ (exists fuel chunks, chunk_loop fuel "a" 1 1 0 [] = Some chunks).
Proof.
  intros (fuel & chunks & H).
  rewrite chunk_loop_stuck in H; [discriminate|lia|simpl; lia].
Qed.

(** C7, amended: [chunk_text] has no guard on its parameters; its loop
    returns exactly when [overlap < chunk_size] or the text is empty, and
    then [chunk_text] gives the chunks. *)
Theorem chunk_text_terminates_iff (text : string) (chunk_size overlap : Z) :
  ((exists fuel chunks,
       chunk_loop fuel text chunk_size overlap 0 [] = Some chunks) <->
   (overlap < chunk_size \/ text = "")) /\
  (forall fuel chunks,
      chunk_loop fuel text chunk_size overlap 0 [] = Some chunks ->
      chunk_text text chunk_size overlap = Some chunks).
Proof.
  assert (Hret : overlap < chunk_size \/ text = "" ->
                 exists chunks,
                   chunk_text text chunk_size overlap = Some chunks).
  { intros [Hlt| ->].
    - apply chunk_loop_returns; [assumption|lia].
    - now exists []. }
  assert (Hdiv : forall fuel chunks,
             chunk_loop fuel text chunk_size overlap 0 [] = Some chunks ->
             overlap < chunk_size \/ text = "").
  { intros fuel chunks H.
    destruct (Z.lt_ge_cases overlap chunk_size) as [Hlt|Hge]; [now left|].
    right. destruct text as [|c text]; [reflexivity|].
    rewrite chunk_loop_stuck in H; [discriminate|lia|simpl; lia]. }
  split.
  - split.
    + intros (fuel & chunks & H). eauto.
    + intros H. destruct (Hret H) as (chunks & E).
      now exists (S (String.length text)), chunks.
  - intros fuel chunks H.
    destruct (Hret (Hdiv _ _ H)) as (chunks' & E).
    rewrite E. f_equal.
    pose proof (@chunk_loop_fuel_mono fuel
                  (Nat.max fuel (S (String.length text)))
                  text chunk_size overlap 0 [] chunks
                  (Nat.le_max_l _ _) H) as H1.
    pose proof (@chunk_loop_fuel_mono (S (String.length text))
                  (Nat.max fuel (S (String.length text)))
                  text chunk_size overlap 0 [] chunks'
                  (Nat.le_max_r _ _) E) as H2.
    congruence.
Qed.

End ChunkerFacts.

(* ------------------------------------------------------------------------ *)
(** ** Sorting indices *)

Module NumpyFacts.
Import Numpy.

Section Lists.
Variable A : Type.

Lemma StronglySorted_app_inv (R : A -> A -> Prop) (l1 l2 : list A) :
  StronglySorted R (l1 ++ l2) ->
  StronglySorted R l1 /\ StronglySorted R l2 /\
  (forall x y, In x l1 -> In y l2 -> R x y).
Proof.
  induction l1 as [|a l1 IH]; simpl; intros H.
  - repeat split; [constructor|assumption|contradiction].
  - apply StronglySorted_inv in H as [Hs Hf].
    destruct (IH Hs) as (H1 & H2 & H12).
    rewrite Forall_app in Hf. destruct Hf as [Hf1 Hf2].
    repeat split; [now constructor|assumption|].
    intros x y [<-|Hx] Hy; [|now apply H12].
    rewrite Forall_forall in Hf2. now apply Hf2.
Qed.

Lemma StronglySorted_app (R : A -> A -> Prop) (l1 l2 : list A) :
  StronglySorted R l1 -> StronglySorted R l2 ->
  (forall x y, In x l1 -> In y l2 -> R x y) ->
  StronglySorted R (l1 ++ l2).
Proof.
  induction l1 as [|a l1 IH]; simpl; intros H1 H2 H12; [assumption|].
  apply StronglySorted_inv in H1 as [Hs Hf]. constructor.
  - apply IH; auto.
  - rewrite Forall_app. split; [assumption|].
    rewrite Forall_forall. auto.
Qed.

Lemma StronglySorted_rev (R : A -> A -> Prop) (l : list A) :
  StronglySorted R l -> StronglySorted (fun x y => R y x) (rev l).
Proof.
  induction 1 as [|a l Hs IH Hf]; simpl; [constructor|].
  apply StronglySorted_app.
  - assumption.
  - repeat constructor.
  - intros x y Hx [<-|[]]. apply in_rev in Hx.
    rewrite Forall_forall in Hf. now apply Hf.
Qed.

Lemma StronglySorted_firstn (R : A -> A -> Prop) (n : nat) (l : list A) :
  StronglySorted R l -> StronglySorted R (firstn n l).
Proof.
  intros H. rewrite <- (firstn_skipn n l) in H.
  now apply StronglySorted_app_inv in H.
Qed.

Lemma StronglySorted_weaken (R R' : A -> A -> Prop) (l : list A) :
  (forall x y, R x y -> R' x y) ->
  StronglySorted R l -> StronglySorted R' l.
Proof.
  intros HR. induction 1 as [|a l Hs IH Hf]; constructor; [assumption|].
  rewrite Forall_forall in *. auto.
Qed.

Lemma StronglySorted_map (B : Type) (f : A -> B) (R : B -> B -> Prop)
      (l : list A) :
  StronglySorted (fun x y => R (f x) (f y)) l ->
  StronglySorted R (map f l).
Proof.
  induction 1 as [|a l Hs IH Hf]; simpl; constructor; [assumption|].
  rewrite Forall_forall in *. intros y Hy.
  apply in_map_iff in Hy as (x & <- & Hx). auto.
Qed.

Lemma In_firstn (n : nat) (l : list A) (x : A) :
  In x (firstn n l) -> In x l.
Proof.
  intros H. rewrite <- (firstn_skipn n l). apply in_or_app. now left.
Qed.

Lemma NoDup_firstn (n : nat) (l : list A) :
  NoDup l -> NoDup (firstn n l).
Proof.
  intros H. rewrite <- (firstn_skipn n l) in H.
  now apply NoDup_app_remove_r in H.
Qed.
End Lists.

Lemma StronglySorted_seq (start len : nat) :
  StronglySorted lt (seq start len).
Proof.
  revert start; induction len as [|len IH]; intros start; simpl;
    constructor; [apply IH|].
  rewrite Forall_forall. intros x Hx. apply in_seq in Hx. lia.
Qed.

Section Argsort.
Variable key : nat -> Q.

Lemma before_key_le (i j : nat) : before key i j -> (key i <= key j)%Q.
Proof. intros [H|[H _]]; lra. Qed.

Lemma insert_perm (i : nat) (l : list nat) :
  Permutation (insert key i l) (i :: l).
Proof.
  induction l as [|j l IH]; simpl; [reflexivity|].
  destruct (Qle_bool (key i) (key j)); [reflexivity|].
  rewrite IH. apply perm_swap.
Qed.

Lemma sort_perm (l : list nat) : Permutation (sort key l) l.
Proof.
  induction l as [|i l IH]; simpl; [reflexivity|].
  rewrite insert_perm. now constructor.
Qed.

Lemma insert_sorted (i : nat) (l : list nat) :
  StronglySorted (before key) l ->
  Forall (lt i) l ->
  StronglySorted (before key) (insert key i l).
Proof.
  induction 1 as [|j l Hs IH Hf]; intros Hi; simpl.
  - repeat constructor.
  - apply Forall_cons_iff in Hi as [Hij Hil].
    destruct (Qle_bool (key i) (key j)) eqn:E.
    + apply Qle_bool_iff in E.
      constructor; [now constructor|].
      assert (Hj : before key i j).
      { unfold before. destruct (Qlt_le_dec (key i) (key j));
          [now left|right; split; [lra|assumption]]. }
      constructor; [assumption|].
      rewrite Forall_forall in *. intros z Hz.
      pose proof (before_key_le (Hf z Hz)).
      pose proof (Hil z Hz). unfold before.
      destruct (Qlt_le_dec (key i) (key z));
        [now left|right; split; [lra|assumption]].
    + assert (key j < key i)%Q.
      { apply Qnot_le_lt. intros H. apply Qle_bool_iff in H. congruence. }
      constructor; [now apply IH|].
      rewrite Forall_forall in *. intros z Hz.
      apply (Permutation_in _ (insert_perm i l)) in Hz.
      destruct Hz as [<-|Hz]; [now left|now apply Hf].
Qed.

Lemma sort_sorted (l : list nat) :
  StronglySorted lt l -> StronglySorted (before key) (sort key l).
Proof.
  induction 1 as [|i l Hs IH Hf]; simpl; [constructor|].
  apply insert_sorted; [assumption|].
  rewrite Forall_forall in *. intros z Hz. apply Hf.
  now apply (Permutation_in _ (sort_perm l)).
Qed.
End Argsort.

Lemma argsort_perm (a : list Q) :
  Permutation (argsort a) (seq 0 (List.length a)).
Proof. apply sort_perm. Qed.

Lemma argsort_sorted (a : list Q) :
  StronglySorted (before (fun i => nth i a 0%Q)) (argsort a).
Proof. apply sort_sorted, StronglySorted_seq. Qed.

Lemma argsort_ascending : ascending_order argsort.
Proof.
  intros a. split; [apply argsort_perm|].
  apply (StronglySorted_weaken (R := before (fun i => nth i a 0%Q)));
    [|apply argsort_sorted].
  intros i j H. exact (before_key_le H).
Qed.

End NumpyFacts.

(* ------------------------------------------------------------------------ *)
(** ** The vector store *)

Module VectorStoreFacts.
Import PyStr Numpy NumpyFacts VectorStore.

Lemma map_nth_seq (A : Type) (l : list A) (d : A) :
  map (fun i => nth i l d) (seq 0 (List.length l)) = l.
Proof.
  induction l as [|a l IH]; [reflexivity|].
  cbn [List.length seq map nth]. f_equal.
  rewrite <- seq_shift, map_map. exact IH.
Qed.

(** *** The indices that [search] keeps *)

Section TopIndices.
Variable similarities : list Q.
Let N := List.length similarities.
Let sim (i : nat) : Q := nth i similarities 0%Q.

Lemma rev_argsort_perm :
  Permutation (rev (argsort similarities)) (seq 0 N).
Proof.
  etransitivity; [symmetry; apply Permutation_rev|apply argsort_perm].
Qed.

Lemma rev_argsort_length : List.length (rev (argsort similarities)) = N.
Proof.
  rewrite (Permutation_length rev_argsort_perm). apply length_seq.
Qed.

Lemma top_indices_firstn (top_k : Z) :
  0 <= top_k ->
  top_indices similarities top_k =
  firstn (Nat.min (Z.to_nat top_k) N) (rev (argsort similarities)).
Proof.
  intros Hk. unfold top_indices, list_slice_to, slice_bound.
  rewrite rev_argsort_length.
  destruct (Z.ltb_spec top_k 0); [lia|]. f_equal. lia.
Qed.

Lemma top_indices_length (top_k : Z) :
  0 <= top_k ->
  List.length (top_indices similarities top_k) =
  Nat.min (Z.to_nat top_k) N.
Proof.
  intros Hk. rewrite top_indices_firstn by assumption.
  rewrite length_firstn, rev_argsort_length. lia.
Qed.

Lemma top_indices_ranked (top_k : Z) :
  StronglySorted (ranked similarities) (top_indices similarities top_k).
Proof.
  unfold top_indices, list_slice_to.
  apply StronglySorted_firstn.
  apply (StronglySorted_rev (argsort_sorted similarities)).
Qed.

Lemma top_indices_incl (top_k : Z) (i : nat) :
  In i (top_indices similarities top_k) -> (i < N)%nat.
Proof.
  unfold top_indices, list_slice_to. intros H.
  apply In_firstn in H.
  apply (Permutation_in _ rev_argsort_perm) in H.
  apply in_seq in H. lia.
Qed.

Lemma top_indices_NoDup (top_k : Z) :
  NoDup (top_indices similarities top_k).
Proof.
  unfold top_indices, list_slice_to.
  apply NoDup_firstn.
  apply (Permutation_NoDup (Permutation_sym rev_argsort_perm)).
  apply seq_NoDup.
Qed.

(** An index that is left out is not more similar than one that is
    kept. *)
Lemma top_indices_best (top_k : Z) (i j : nat) :
  In i (top_indices similarities top_k) ->
  (j < N)%nat ->
  ~ In j (top_indices similarities top_k) ->
  (sim j <= sim i)%Q.
Proof.
  unfold top_indices, list_slice_to.
  set (n := Z.to_nat _). set (l := rev (argsort similarities)).
  intros Hi Hj Hnj.
  assert (Hl : In j l).
  { apply (Permutation_in _ (Permutation_sym rev_argsort_perm)).
    apply in_seq. lia. }
  rewrite <- (firstn_skipn n l) in Hl.
  apply in_app_or in Hl as [Hl|Hl]; [contradiction|].
  pose proof (StronglySorted_rev (argsort_sorted similarities)) as Hs.
  fold l in Hs. rewrite <- (firstn_skipn n l) in Hs.
  apply StronglySorted_app_inv in Hs as (_ & _ & H).
  apply (before_key_le (H i j Hi Hl)).
Qed.

Lemma top_indices_all (top_k : Z) :
  Z.of_nat N <= top_k ->
  Permutation (top_indices similarities top_k) (seq 0 N).
Proof.
  intros Hk. rewrite top_indices_firstn by lia.
  rewrite firstn_all2 by (rewrite rev_argsort_length; lia).
  apply rev_argsort_perm.
Qed.
End TopIndices.

(** *** search *)

Section Search.
Context {EM : EmbeddingModel}.

Lemma collect_hits (docs : list Document) (similarities : list Q)
      (d0 : Document) (idxs : list nat) (acc : list SearchResult) :
  Forall (fun i => (i < List.length docs)%nat) idxs ->
  collect docs similarities idxs acc =
  Returned (acc ++ map (hit docs similarities d0) idxs).
Proof.
  revert acc; induction idxs as [|i idxs IH]; intros acc H; simpl.
  - now rewrite app_nil_r.
  - apply Forall_cons_iff in H as [Hi H].
    rewrite (nth_error_nth' docs d0 Hi), IH by assumption.
    now rewrite <- app_assoc.
Qed.

(** On a balanced store that holds documents, and for a query that has
    an embedding, [search] returns the hits of the kept indices. *)
Lemma search_hits (self : t) (query : string) (top_k : Z)
      (qe : embedding) (d0 : Document) :
  documents self <> [] ->
  balanced self ->
  get_single_embedding query = Some qe ->
  search self query top_k =
  Returned
    (map (hit (documents self) (map (cosine qe) (embeddings self)) d0)
         (top_indices (map (cosine qe) (embeddings self)) top_k)).
Proof.
  intros Hne Hbal Hq. unfold search. rewrite Hq.
  destruct (documents self) as [|d docs] eqn:Ed; [contradiction|].
  unfold balanced in Hbal. rewrite Ed in Hbal.
  destruct (embeddings self) as [|e embs] eqn:Ee; [discriminate|].
  cbn [cosine_similarity bind_outcome].
  rewrite collect_hits with (d0 := d0); [reflexivity|].
  rewrite Forall_forall. intros i Hi.
  apply top_indices_incl in Hi. rewrite length_map in Hi.
  now rewrite Hbal.
Qed.
End Search.

(** *** search with any index sort *)

Section Ranking.
Context {EM : EmbeddingModel}.
Variable order : list Q -> list nat.
Hypothesis Hord : ascending_order order.

Lemma rev_order_perm (similarities : list Q) :
  Permutation (rev (order similarities))
              (seq 0 (List.length similarities)).
Proof.
  etransitivity; [symmetry; apply Permutation_rev|apply Hord].
Qed.

Lemma rev_order_length (similarities : list Q) :
  List.length (rev (order similarities)) = List.length similarities.
Proof.
  rewrite (Permutation_length (rev_order_perm similarities)).
  apply length_seq.
Qed.

Lemma top_by_length (similarities : list Q) (top_k : Z) :
  0 <= top_k ->
  List.length (top_indices_by order similarities top_k) =
  Nat.min (Z.to_nat top_k) (List.length similarities).
Proof.
  intros Hk. unfold top_indices_by, list_slice_to, slice_bound.
  rewrite rev_order_length, length_firstn, rev_order_length.
  destruct (Z.ltb_spec top_k 0); lia.
Qed.

Lemma top_by_descending (similarities : list Q) (top_k : Z) :
  StronglySorted
    (fun i j => (nth j similarities 0 <= nth i similarities 0)%Q)
    (top_indices_by order similarities top_k).
Proof.
  unfold top_indices_by, list_slice_to.
  apply StronglySorted_firstn.
  apply (StronglySorted_rev (proj2 (Hord similarities))).
Qed.

Lemma top_by_incl (similarities : list Q) (top_k : Z) (i : nat) :
  In i (top_indices_by order similarities top_k) ->
  (i < List.length similarities)%nat.
Proof.
  unfold top_indices_by, list_slice_to. intros H.
  apply In_firstn in H.
  apply (Permutation_in _ (rev_order_perm similarities)) in H.
  apply in_seq in H. lia.
Qed.

Lemma top_by_NoDup (similarities : list Q) (top_k : Z) :
  NoDup (top_indices_by order similarities top_k).
Proof.
  unfold top_indices_by, list_slice_to.
  apply NoDup_firstn.
  apply (Permutation_NoDup (Permutation_sym (rev_order_perm similarities))).
  apply seq_NoDup.
Qed.

Lemma top_by_best (similarities : list Q) (top_k : Z) (i j : nat) :
  In i (top_indices_by order similarities top_k) ->
  (j < List.length similarities)%nat ->
  ~ In j (top_indices_by order similarities top_k) ->
  (nth j similarities 0 <= nth i similarities 0)%Q.
Proof.
  unfold top_indices_by, list_slice_to.
  set (n := Z.to_nat _). set (l := rev (order similarities)).
  intros Hi Hj Hnj.
  assert (Hl : In j l).
  { apply (Permutation_in _
             (Permutation_sym (rev_order_perm similarities))).
    apply in_seq. lia. }
  rewrite <- (firstn_skipn n l) in Hl.
  apply in_app_or in Hl as [Hl|Hl]; [contradiction|].
  pose proof (StronglySorted_rev (proj2 (Hord similarities))) as Hs.
  fold l in Hs. rewrite <- (firstn_skipn n l) in Hs.
  apply StronglySorted_app_inv in Hs as (_ & _ & H).
  exact (H i j Hi Hl).
Qed.

Lemma search_by_hits (self : t) (query : string) (top_k : Z)
      (qe : embedding) (d0 : Document) :
  documents self <> [] ->
  balanced self ->
  get_single_embedding query = Some qe ->
  search_by order self query top_k =
  Returned
    (map (hit (documents self) (map (cosine qe) (embeddings self)) d0)
         (top_indices_by order (map (cosine qe) (embeddings self)) top_k)).
Proof.
  intros Hne Hbal Hq. unfold search_by. rewrite Hq.
  destruct (documents self) as [|d docs] eqn:Ed; [contradiction|].
  unfold balanced in Hbal. rewrite Ed in Hbal.
  destruct (embeddings self) as [|e embs] eqn:Ee; [discriminate|].
  cbn [cosine_similarity bind_outcome].
  rewrite collect_hits with (d0 := d0); [reflexivity|].
  rewrite Forall_forall. intros i Hi.
  apply top_by_incl in Hi. rewrite length_map in Hi.
  now rewrite Hbal.
Qed.
End Ranking.

(** [search] is [search_by] with the index sort of the model. *)
Lemma search_by_argsort {EM : EmbeddingModel} (self : t) (query : string)
      (top_k : Z) :
  search_by argsort self query top_k = search self query top_k.
Proof. reflexivity. Qed.

(** ** The claims on search *)

Import Fixture.
Local Open Scope string_scope.

(** C1, as stated, fails on ties: in the store [compass] the chunks "north"
    (inserted first) and "also north" (inserted second) are equally similar
    to the query, and [search] puts the one inserted later first. *)
Lemma search_tie_counterexample :
  documents compass = [chunk "north" 0; chunk "also north" 1; chunk "east" 2]
  /\
  search compass "which way is north?" 2 =
  Returned [ {| document := chunk "also north" 1; similarity := 1 |};
             {| document := chunk "north" 0; similarity := 1 |} ].
Proof. split; reflexivity. Qed.

(** C1, amended: on a store that holds documents, with as many embeddings,
    and for a query that has an embedding, [search] with [top_k >= 0]
    returns the hits of [min(top_k, N)] distinct stored records, none of
    them less similar to the query than a record left out, in descending
    order of similarity.  This holds with every index sort that
    [np.argsort] may run; between two records that are equally similar no
    order is promised. *)
Theorem search_ranked {EM : EmbeddingModel} (order : list Q -> list nat)
        (self : t) (query : string) (top_k : Z) (qe : embedding)
        (d0 : Document) :
  ascending_order order ->
  documents self <> [] ->
  balanced self ->
  get_single_embedding query = Some qe ->
  0 <= top_k ->
  let N := List.length (documents self) in
  let similarities := map (cosine qe) (embeddings self) in
  let sim := fun i => nth i similarities 0%Q in
  exists idxs,
    search_by order self query top_k =
      Returned (map (hit (documents self) similarities d0) idxs) /\
    NoDup idxs /\
    Forall (fun i => (i < N)%nat) idxs /\
    List.length idxs = Nat.min (Z.to_nat top_k) N /\
    (forall i j, In i idxs -> (j < N)%nat -> ~ In j idxs ->
                 (sim j <= sim i)%Q) /\
    StronglySorted (fun i j => (sim j <= sim i)%Q) idxs /\
    StronglySorted (fun r1 r2 => (similarity r2 <= similarity r1)%Q)
                   (map (hit (documents self) similarities d0) idxs).
Proof.
  intros Hord Hne Hbal Hq Hk N similarities sim.
  assert (HN : List.length similarities = N).
  { unfold similarities, N. rewrite length_map. now symmetry. }
  exists (top_indices_by order similarities top_k).
  split; [now apply search_by_hits|].
  split; [now apply top_by_NoDup|].
  split.
  { rewrite Forall_forall. intros i Hi.
    apply (top_by_incl Hord) in Hi. now rewrite <- HN. }
  split; [rewrite <- HN; now apply top_by_length|].
  split.
  { intros i j Hi Hj Hnj.
    apply (top_by_best Hord similarities top_k); [assumption| |assumption].
    now rewrite HN. }
  split; [exact (top_by_descending Hord similarities top_k)|].
  apply StronglySorted_map. cbn [hit similarity].
  exact (top_by_descending Hord similarities top_k).
Qed.

Lemma search_ranked_witness :
  exists idxs,
    search compass "north-east" 2 =
      Returned (map (hit (documents compass)
                         (map (cosine [3 # 5; 4 # 5]%Q) (embeddings compass))
                         (chunk "" 0)) idxs) /\
    NoDup idxs /\
    Forall (fun i => (i < 3)%nat) idxs /\
    List.length idxs = Nat.min (Z.to_nat 2) 3 /\
    (forall i j, In i idxs -> (j < 3)%nat -> ~ In j idxs ->
                 (nth j (map (cosine [3 # 5; 4 # 5]%Q) (embeddings compass)) 0
                  <= nth i (map (cosine [3 # 5; 4 # 5]%Q)
                                (embeddings compass)) 0)%Q) /\
    StronglySorted
      (fun i j =>
         (nth j (map (cosine [3 # 5; 4 # 5]%Q) (embeddings compass)) 0
          <= nth i (map (cosine [3 # 5; 4 # 5]%Q) (embeddings compass)) 0)%Q)
      idxs /\
    StronglySorted (fun r1 r2 => (similarity r2 <= similarity r1)%Q)
                   (map (hit (documents compass)
                             (map (cosine [3 # 5; 4 # 5]%Q)
                                  (embeddings compass))
                             (chunk "" 0)) idxs).
Proof.
  apply (@search_ranked provider argsort compass "north-east" 2
                        [3 # 5; 4 # 5]%Q (chunk "" 0));
    [apply argsort_ascending|discriminate|reflexivity|reflexivity|lia].
Defined.

(** C10: on a store that holds [N] documents, with as many embeddings, and
    for a query that has an embedding, [search] with [top_k >= 0] returns
    exactly [min(top_k, N)] results, and when [top_k >= N] the returned
    documents are the stored ones, each once. *)
Theorem search_count {EM : EmbeddingModel} (self : t) (query : string)
        (top_k : Z) (qe : embedding) :
  documents self <> [] ->
  balanced self ->
  get_single_embedding query = Some qe ->
  0 <= top_k ->
  exists results,
    search self query top_k = Returned results /\
    Z.of_nat (List.length results) =
      Z.min top_k (Z.of_nat (List.length (documents self))) /\
    (Z.of_nat (List.length (documents self)) <= top_k ->
     Permutation (map document results) (documents self)).
Proof.
  intros Hne Hbal Hq Hk.
  destruct (documents self) as [|d0 docs] eqn:Ed; [contradiction|].
  rewrite <- Ed in *.
  set (similarities := map (cosine qe) (embeddings self)).
  assert (HN : List.length similarities = List.length (documents self)).
  { unfold similarities. rewrite length_map. now symmetry. }
  eexists. split; [apply (@search_hits _ self query top_k qe d0);
                   [congruence|assumption|assumption]|].
  fold similarities. split.
  - rewrite length_map, top_indices_length, HN by assumption. lia.
  - intros Hall. rewrite map_map. cbn [hit document].
    eapply Permutation_trans;
      [apply Permutation_map, top_indices_all; now rewrite HN|].
    now rewrite HN, map_nth_seq.
Qed.

Lemma search_count_witness :
  exists results,
    search compass "north-east" 5 = Returned results /\
    Z.of_nat (List.length results) =
      Z.min 5 (Z.of_nat (List.length (documents compass))) /\
    (Z.of_nat (List.length (documents compass)) <= 5 ->
     Permutation (map document results) (documents compass)).
Proof.
  apply (@search_count provider compass "north-east" 5 [3 # 5; 4 # 5]%Q);
    [discriminate|reflexivity|reflexivity|lia].
Defined.

(** C8: [search] returns the empty list, and raises nothing, when the store
    holds no documents or when the provider has no vector for the query. *)
Theorem search_no_data {EM : EmbeddingModel} (self : t) (query : string)
        (top_k : Z) :
  documents self = [] \/ get_single_embedding query = None ->
  search self query top_k = Returned [].
Proof.
  intros [H|H]; unfold search; rewrite H; [reflexivity|].
  now destruct (documents self).
Qed.

Lemma search_no_data_witness :
  search compass "nowhere" 3 = Returned [] /\
  search (EM := provider) empty "north" 3 = Returned [].
Proof.
  split.
  - apply (@search_no_data provider compass "nowhere" 3).
    right; reflexivity.
  - apply (@search_no_data provider empty "north" 3).
    left; reflexivity.
Defined.

End VectorStoreFacts.

(* ------------------------------------------------------------------------ *)
(** ** The invariant of the store *)

Module InvariantFacts.
Import PyStr Chunker ChunkerFacts VectorStore.

Lemma chunk_text_default (text : string) :
  exists chunks,
    chunk_text text default_chunk_size default_overlap = Some chunks /\
    Z.of_nat (List.length chunks) =
      ceil_div (Z.of_nat (String.length text))
               (default_chunk_size - default_overlap).
Proof.
  destruct (@chunk_loop_spec text default_chunk_size default_overlap
              ltac:(reflexivity) ltac:(discriminate)
              (S (String.length text)) 0) as (chunks & E & Hn & _);
    [lia|lia|].
  exists chunks. split; [exact E|]. rewrite Hn. f_equal. lia.
Qed.

Section Invariant.
Context {EM : EmbeddingModel} {FS : FileSystem}.

Lemma append_pairs_balanced (pairs : list (Document * embedding))
      (self : t) :
  balanced self -> balanced (fold_left append_pair pairs self).
Proof.
  revert self; induction pairs as [|p pairs IH]; intros self H; simpl;
    [assumption|].
  apply IH. unfold balanced, append_pair in *. simpl.
  rewrite !length_app. simpl. lia.
Qed.

Lemma add_documents_balanced (self : t) (disk : Disk) (w : save_outcome)
      (docs : list Document) :
  balanced self -> balanced (fst (add_documents self disk w docs)).
Proof. intros H. now apply append_pairs_balanced. Qed.

Lemma load_store_balanced (self : t) (disk : Disk) :
  balanced self -> consistent disk -> balanced (load_store self disk).
Proof.
  unfold load_store, consistent. intros Hs Hd.
  destruct (documents_pkl disk); try assumption.
  destruct (embeddings_pkl disk); try contradiction. exact Hd.
Qed.

Lemma save_store_consistent (self : t) (disk : Disk) :
  balanced self -> consistent (save_store self disk SaveCompletes).
Proof. intros H. exact H. Qed.

Lemma init_balanced (disk0 : Disk) (w : save_outcome) :
  consistent disk0 ->
  exists self disk, init disk0 w = Some (self, disk) /\ balanced self.
Proof.
  intros Hd. unfold init.
  assert (Hl : balanced (load_store empty disk0))
    by (apply load_store_balanced; [reflexivity|assumption]).
  destruct (documents (load_store empty disk0)) eqn:E.
  - unfold initialize_with_default.
    destruct (truthy DocumentProcessor.load_default_pdf).
    + destruct (chunk_text_default DocumentProcessor.load_default_pdf)
        as (chunks & Ec & _).
      rewrite Ec. do 2 eexists. split.
      * rewrite (surjective_pairing (add_documents _ _ _ _)).
        reflexivity.
      * now apply add_documents_balanced.
    + now do 2 eexists.
  - now do 2 eexists.
Qed.
End Invariant.

(** ** The claim on the invariant *)

Import Fixture.
Local Open Scope string_scope.

(** C4, as stated, fails at load: [load_store] checks no length.  From a
    persisted pair that has one document and no readable embeddings, the
    constructor gives a store with one document and no embedding. *)
Lemma load_mismatch_counterexample :
  exists self disk,
    init half_saved SaveCompletes = Some (self, disk) /\
    List.length (documents self) = 1%nat /\
    List.length (embeddings self) = 0%nat.
Proof. do 2 eexists. split; [reflexivity|]. split; reflexivity. Qed.

(** C4, amended: when the persisted pair is consistent (no readable
    documents, or documents and embeddings of the same length), the
    constructor returns a store with as many embeddings as documents, and
    every state reached from it by [add_documents] keeps the equality
    ([search] changes no state).  [load_store] itself rejects nothing. *)
Theorem store_balanced {EM : EmbeddingModel} {FS : FileSystem}
        (disk0 : Disk) :
  consistent disk0 ->
  (forall w, exists self disk, init disk0 w = Some (self, disk)) /\
  (forall self disk, reachable disk0 self disk -> balanced self).
Proof.
  intros Hd. split.
  - intros w. destruct (@init_balanced _ _ disk0 w Hd) as (self & disk & E & _).
    now exists self, disk.
  - intros self disk H. induction H as [w self disk E|self disk w docs H IH].
    + destruct (@init_balanced _ _ disk0 w Hd) as (self' & disk' & E' & Hb).
      congruence.
    + now apply add_documents_balanced.
Qed.

Lemma store_balanced_witness :
  (forall w, exists self disk, init saved w = Some (self, disk)) /\
  (forall self disk, reachable saved self disk -> balanced self).
Proof. apply (@store_balanced provider files saved). reflexivity. Defined.

End InvariantFacts.

(* ------------------------------------------------------------------------ *)
(** ** Ingestion and retrieval *)

Module RAGFacts.
Import PyStr Chunker VectorStore DocumentProcessor RAGSystem.
Import InvariantFacts.
Local Open Scope string_scope.

(** *** Letter case and substrings *)

Lemma lower_char_idem (c : ascii) : lower_char (lower_char c) = lower_char c.
Proof.
  destruct c as [[] [] [] [] [] [] [] []]; vm_compute; reflexivity.
Qed.

Lemma lower_idem (s : string) : lower (lower s) = lower s.
Proof.
  induction s as [|c s IH]; simpl; [reflexivity|].
  now rewrite lower_char_idem, IH.
Qed.

Lemma prefix_lower (k s : string) :
  prefix k s = true -> prefix (lower k) (lower s) = true.
Proof.
  revert s; induction k as [|a k IH]; intros s H;
    [destruct s; reflexivity|].
  destruct s as [|b s]; [discriminate|]. simpl in *.
  destruct (ascii_dec a b) as [->|]; [|discriminate].
  destruct (ascii_dec (lower_char b) (lower_char b)); [|congruence].
  now apply IH.
Qed.

Lemma contains_lower (k s : string) :
  contains k s = true -> contains (lower k) (lower s) = true.
Proof.
  induction s as [|b s IH]; intros H.
  - cbn [contains lower] in *. rewrite orb_false_r in *.
    now apply (@prefix_lower k "").
  - cbn [contains lower] in *. apply orb_true_iff in H as [H|H].
    + apply (@prefix_lower k (String b s)) in H.
      cbn [lower] in H. now rewrite H.
    + rewrite (IH H). apply orb_true_r.
Qed.

(** A match found by the code is a match when case is ignored. *)
Lemma any_in_lower_matches (keywords : list string) (text : string) :
  any_in keywords (lower text) = true -> spec_matches keywords text = true.
Proof.
  unfold any_in, spec_matches. rewrite !existsb_exists.
  intros (k & Hk & H). exists k. split; [assumption|].
  rewrite <- (lower_idem text). now apply contains_lower.
Qed.

(** *** Ingestion *)

Section Ingest.
Context {EM : EmbeddingModel} {FS : FileSystem}.

Lemma enumerate_length (A : Type) (l : list A) :
  List.length (enumerate l) = List.length l.
Proof.
  unfold enumerate. rewrite length_combine, length_seq. lia.
Qed.

(** The chunks of one file that is not skipped: as many as its text has
    when it was read, none when its reader failed. *)
Lemma chunks_of_read (r : option string) :
  exists chunks,
    chunk_text (or_empty r) default_chunk_size default_overlap
      = Some chunks /\
    List.length chunks = match r with
                         | Some text => chunk_count text
                         | None => 0%nat
                         end.
Proof.
  destruct r as [text|]; simpl.
  - destruct (chunk_text_default text) as (chunks & E & Hn).
    exists chunks. split; [assumption|]. unfold chunk_count. lia.
  - now exists [].
Qed.

Lemma process_files_count (file_paths : list string)
      (documents : list Document) :
  exists new,
    process_files file_paths documents = Some (documents ++ new)%list /\
    List.length new = ingested_count file_paths.
Proof.
  revert documents; induction file_paths as [|p ps IH]; intros documents.
  - exists []. now rewrite app_nil_r.
  - cbn [process_files map]. unfold ingested_count. cbn [map list_sum].
    fold (ingested_count ps). unfold extracted, extract_by_ext,
      extract_text_from_pdf, extract_text_from_docx, extract_text_from_txt.
    destruct (path_exists p); cbn [negb];
      [|destruct (IH documents) as (new & E & Hn); now exists new].
    set (ext := lower (splitext_ext p)).
    assert (Hstep : forall r,
               exists new,
                 match chunk_text (or_empty r) default_chunk_size
                                  default_overlap with
                 | Some chunks =>
                     process_files ps
                       (documents ++
                        map (uploaded_chunk p ext) (enumerate chunks))
                 | None => None
                 end = Some (documents ++ new)%list /\
                 List.length new =
                 (match r with
                  | Some text => chunk_count text
                  | None => 0
                  end + ingested_count ps)%nat).
    { intros r. destruct (chunks_of_read r) as (chunks & Ec & Hc).
      rewrite Ec.
      destruct (IH (documents ++
                    map (uploaded_chunk p ext) (enumerate chunks))%list)
        as (new & E & Hn).
      exists (map (uploaded_chunk p ext) (enumerate chunks) ++ new)%list.
      split; [now rewrite app_assoc|].
      rewrite length_app, length_map, enumerate_length. lia. }
    destruct (String.eqb ext ".pdf"); [apply Hstep|].
    destruct (String.eqb ext ".docx"); [apply Hstep|].
    destruct (String.eqb ext ".txt"); [apply Hstep|].
    destruct (IH documents) as (new & E & Hn). now exists new.
Qed.
End Ingest.

(** ** The claim on ingestion *)

(** C9: for every batch of paths, [process_and_store_documents] returns,
    and the count it returns is the number of chunks of the files that are
    processed with success; a file that is missing, has another extension
    or cannot be read adds nothing and stops nothing. *)
Theorem process_and_store_documents_count
        {EM : EmbeddingModel} {FS : FileSystem}
        (store : VectorStore.t) (disk : Disk) (w : save_outcome)
        (file_paths : list string) :
  exists store' disk',
    process_and_store_documents store disk w file_paths =
    Some (store', disk', ingested_count file_paths).
Proof.
  unfold process_and_store_documents.
  destruct (process_files_count file_paths []) as (new & E & Hn).
  rewrite E. cbn [app].
  destruct (add_documents store disk w new) as [store' disk'].
  exists store', disk'. now rewrite Hn.
Qed.

Import Fixture.

(** A batch of three files of which the second cannot be parsed: the count
    is that of the two others, one chunk each. *)
Example ingest_three_files :
  exists store' disk',
    process_and_store_documents empty blank SaveCompletes
      ["a.txt"; "broken.pdf"; "notes/b.TXT"] = Some (store', disk', 2%nat)
    /\ extracted "broken.pdf" = None
    /\ option_map chunk_count (extracted "a.txt") = Some 1%nat
    /\ option_map chunk_count (extracted "notes/b.TXT") = Some 1%nat.
Proof. do 2 eexists. repeat split; reflexivity. Qed.

(** *** Retrieval *)

Lemma truthy_append (a b : string) :
  truthy a = true -> truthy (a ++ b) = true.
Proof. now destruct a. Qed.

Lemma format_results_truthy (l : list (nat * SearchResult)) (acc : string) :
  truthy acc = true -> truthy (fold_left format_result l acc) = true.
Proof.
  revert acc; induction l as [|ir l IH]; intros acc H; simpl;
    [assumption|].
  apply IH. unfold format_result. now apply truthy_append.
Qed.

Section Retrieve.
Context {EM : EmbeddingModel}.

(** Without results the flag is [false], whatever the query. *)
Lemma retrieve_without_results (store : VectorStore.t) (query : string)
      (top_k : Z) :
  search store query top_k = Returned [] ->
  retrieve_relevant_context store query top_k = Returned ("", false).
Proof. unfold retrieve_relevant_context. now intros ->. Qed.

(** With results the flag is the keyword test on the lowered query, and
    the context is not empty. *)
Lemma retrieve_with_results (store : VectorStore.t) (query : string)
      (top_k : Z) (r : SearchResult) (rs : list SearchResult) :
  search store query top_k = Returned (r :: rs) ->
  exists context,
    retrieve_relevant_context store query top_k =
      Returned (context, any_in financial_keywords (lower query)) /\
    truthy context = true.
Proof.
  unfold retrieve_relevant_context. intros ->. cbn [bind_outcome].
  eexists. split; [reflexivity|].
  now apply format_results_truthy.
Qed.

(** The flag is never [true] next to an empty context. *)
Lemma retrieve_financial_has_context (store : VectorStore.t)
      (query : string) (top_k : Z) (context : string) :
  retrieve_relevant_context store query top_k = Returned (context, true) ->
  truthy context = true.
Proof.
  destruct (search store query top_k) as [[|r rs]|e] eqn:E.
  - rewrite (retrieve_without_results _ _ _ E). discriminate.
  - destruct (retrieve_with_results _ _ _ E) as (c & -> & Hc).
    now intros [= <- _].
  - unfold retrieve_relevant_context. rewrite E. discriminate.
Qed.
End Retrieve.

(** ** The claim on the financial flag *)

(** C5 at its failing input: on a store without documents the query
    "What was AWS revenue growth?" is answered with the flag [false],
    although the keywords "revenue" and "growth" occur in it. *)
Theorem retrieve_flag_needs_results {EM : EmbeddingModel} :
  retrieve_relevant_context empty "What was AWS revenue growth?" 3 =
    Returned ("", false) /\
  spec_matches financial_keywords "What was AWS revenue growth?" = true.
Proof. split; reflexivity. Qed.

(** The second way in which the flag differs: the query is lowered before
    the test, and the keywords "AWS" and "EBITDA" are not, so that they
    never match. *)
Example retrieve_uppercase_keywords_missed :
  exists context,
    retrieve_relevant_context compass "AWS EBITDA" 3 =
      Returned (context, false) /\
    truthy context = true /\
    spec_matches financial_keywords "AWS EBITDA" = true.
Proof. eexists. repeat split; reflexivity. Qed.

(** The two examples of the claim, on a store that gives results. *)
Example retrieve_examples :
  (exists context,
      retrieve_relevant_context compass "What was AWS revenue growth?" 3 =
      Returned (context, true)) /\
  (exists context,
      retrieve_relevant_context compass "What is the weather today?" 3 =
      Returned (context, false)).
Proof. split; eexists; reflexivity. Qed.

End RAGFacts.

(* ------------------------------------------------------------------------ *)
(** ** The web-search decision *)

Module AppFacts.
Import PyStr VectorStore RAGSystem WebSearchTool App RAGFacts.
Local Open Scope string_scope.

Section Decision.
Context {EM : EmbeddingModel} {RM : Remote}.

(** The retrieval block makes no call and never sets the flag: the flag
    needs a financial query with an empty context, and
    [retrieve_relevant_context] gives no such pair. *)
Lemma rag_step_keeps (store : VectorStore.t) (prompt : string)
      (use_rag : bool) (l l' : locals) :
  rag_step store prompt use_rag l = Returned l' ->
  needs_web_search l' = needs_web_search l /\ calls l' = calls l.
Proof.
  unfold rag_step. destruct use_rag; [|now intros [= <-]].
  destruct (retrieve_relevant_context store prompt 3)
    as [[context is_financial]|e] eqn:E; [|discriminate].
  cbn [bind_outcome fst snd].
  destruct is_financial.
  - rewrite (retrieve_financial_has_context _ _ _ E). cbn.
    now intros [= <-].
  - cbn. destruct (truthy context); now intros [= <-].
Qed.

Lemma web_step_calls (prompt : string) (use_web_search : bool)
      (l : locals) :
  calls (web_step prompt use_web_search l) =
  if use_web_search && (needs_web_search l || should_use_web_search prompt)
  then (calls l ++ [WebSearch prompt])%list else calls l.
Proof.
  unfold web_step.
  now destruct (use_web_search &&
                (needs_web_search l || should_use_web_search prompt)).
Qed.

(** What the code decides: a turn that returns has searched the web
    exactly when web search is enabled and [should_use_web_search] holds
    of the prompt. *)
Lemma generate_response_decision (store : VectorStore.t)
      (history : list Message) (prompt response_mode : string)
      (use_rag use_web_search : bool) (t : turn) :
  generate_response store history prompt response_mode
                    use_rag use_web_search = Returned t ->
  searched_web t = use_web_search && should_use_web_search prompt.
Proof.
  unfold generate_response.
  destruct (rag_step store prompt use_rag _) as [l1|e] eqn:E;
    [|discriminate].
  apply rag_step_keeps in E as [Hn Hc]. cbn in Hn, Hc.
  cbn [bind_outcome]. intros [= <-].
  unfold searched_web. cbn [turn_calls].
  rewrite web_step_calls, Hn, Hc. cbn [orb].
  destruct (use_web_search && should_use_web_search prompt); reflexivity.
Qed.
End Decision.

(** ** The claim on the web-search decision *)

(** C6 at its failing input: with retrieval off and web search on, the
    prompt "Q1 results" holds the trigger "Q1", and the turn makes no web
    search: the prompt is lowered before the test and the triggers "Q1" to
    "Q4" are not. *)
Theorem web_search_quarter_label_missed
        {EM : EmbeddingModel} {RM : Remote}
        (store : VectorStore.t) (history : list Message)
        (response_mode : string) :
  spec_matches web_search_indicators "Q1 results" = true /\
  exists t,
    generate_response store history "Q1 results" response_mode false true
      = Returned t /\
    searched_web t = false.
Proof. split; [reflexivity|]. eexists. split; reflexivity. Qed.


Import Fixture.

(** The two examples of the claim, on a store that gives context for both
    prompts: "latest stock price" makes the turn search the web,
    "Summarize the document" does not. *)
Example web_search_examples :
  (exists context,
      retrieve_relevant_context compass "latest stock price" 3 =
        Returned (context, true) /\ truthy context = true) /\
  (exists t,
      generate_response compass [] "latest stock price" "Detailed" true true
        = Returned t /\ searched_web t = true) /\
  (exists context,
      retrieve_relevant_context compass "Summarize the document" 3 =
        Returned (context, false) /\ truthy context = true) /\
  (exists t,
      generate_response compass [] "Summarize the document" "Detailed"
                        true true
        = Returned t /\ searched_web t = false).
Proof. repeat split; eexists; split; reflexivity. Qed.

(** A financial query on a store without documents: retrieval gives no
    context, and still no web search is made. *)
Example web_search_not_flagged :
  spec_matches financial_keywords "What was AWS revenue growth?" = true /\
  exists t,
    generate_response empty [] "What was AWS revenue growth?" "Detailed"
                      true true
      = Returned t /\ searched_web t = false.
Proof. split; [reflexivity|]. eexists. split; reflexivity. Qed.

End AppFacts.

(* ------------------------------------------------------------------------ *)
(** ** More on chunking: the windows *)

Module WindowFacts.
Import PyStr Chunker PyStrFacts ChunkerFacts.

Lemma slice_length (s : string) (start stop : Z) :
  0 <= start ->
  0 <= stop ->
  Z.of_nat (String.length (slice s start stop)) =
  Z.max 0 (Z.min stop (Z.of_nat (String.length s)) -
           Z.min start (Z.of_nat (String.length s))).
Proof.
  intros Hs He. rewrite <- chars_length, chars_slice by assumption.
  rewrite length_firstn, length_skipn, chars_length. lia.
Qed.

Lemma chars_slice_prefix (s : string) (k : Z) :
  0 <= k -> chars (slice s 0 k) = firstn (Z.to_nat k) (chars s).
Proof.
  intros Hk. rewrite chars_slice by lia.
  rewrite Z.min_l with (n := 0) by lia. cbn [Z.to_nat skipn].
  rewrite Nat.sub_0_r.
  destruct (Z.le_gt_cases k (Z.of_nat (String.length s))).
  - now rewrite Z.min_l by lia.
  - rewrite Z.min_r by lia.
    rewrite !firstn_all2 by (rewrite chars_length; lia). reflexivity.
Qed.

(** The loop from a position [start] gives the windows that begin at
    [start], [start + step], ... below the end of the text. *)
Lemma chunk_loop_windows (text : string) (cs ov : Z) :
  ov < cs ->
  forall (fuel : nat) (start : Z),
    Z.max 0 (Z.of_nat (String.length text) - start) < Z.of_nat fuel ->
    chunk_loop fuel text cs ov start [] =
    Some (map (fun i => slice text (start + Z.of_nat i * (cs - ov))
                              (start + Z.of_nat i * (cs - ov) + cs))
              (seq 0 (Z.to_nat
                        (ceil_div
                           (Z.max 0 (Z.of_nat (String.length text) - start))
                           (cs - ov))))).
Proof.
  intros Hlt. set (L := Z.of_nat (String.length text)).
  induction fuel as [|fuel IH]; intros start Hf; [lia|].
  rewrite chunk_loop_unfold. fold L.
  destruct (Z.ltb_spec start L) as [Hin|Hout].
  - rewrite IH by lia.
    rewrite (@ceil_div_step (Z.max 0 (L - start)) (cs - ov)) by lia.
    replace (Z.max 0 (Z.max 0 (L - start) - (cs - ov)))
      with (Z.max 0 (L - (start + cs - ov))) by lia.
    pose proof (@ceil_div_bounds (Z.max 0 (L - (start + cs - ov))) (cs - ov)
                  ltac:(lia)) as Hb.
    assert (0 <= ceil_div (Z.max 0 (L - (start + cs - ov))) (cs - ov))
      by nia.
    replace (Z.to_nat
               (1 + ceil_div (Z.max 0 (L - (start + cs - ov))) (cs - ov)))
      with (S (Z.to_nat
                 (ceil_div (Z.max 0 (L - (start + cs - ov))) (cs - ov))))
      by lia.
    cbn [seq map option_map]. do 2 f_equal.
    + f_equal; lia.
    + rewrite <- seq_shift, map_map. apply map_ext. intros i.
      f_equal; lia.
  - rewrite Z.max_l by lia. rewrite ceil_div_0 by lia. reflexivity.
Qed.

(** The start of every window that the loop produces lies in the text. *)
Lemma window_start_in_text (len step : Z) (i : nat) :
  0 < step ->
  (i < Z.to_nat (ceil_div len step))%nat ->
  Z.of_nat i * step < len.
Proof.
  intros Hs Hi. pose proof (ceil_div_bounds len Hs) as [Hb _].
  assert (Z.of_nat i <= ceil_div len step - 1) by lia.
  assert (Z.of_nat i * step <= (ceil_div len step - 1) * step)
    by (apply Z.mul_le_mono_nonneg_r; lia).
  lia.
Qed.

(** Every chunk holds at least one character and at most [chunk_size]. *)
Lemma chunk_sizes (text : string) (chunk_size overlap : Z)
      (chunks : list string) (chunk : string) :
  overlap < chunk_size ->
  0 <= overlap ->
  chunk_text text chunk_size overlap = Some chunks ->
  In chunk chunks ->
  0 < Z.of_nat (String.length chunk) <= chunk_size.
Proof.
  intros Hlt Hov E Hin. unfold chunk_text in E.
  rewrite chunk_loop_windows in E by lia.
  rewrite Z.sub_0_r, Z.max_r in E by lia. injection E as <-.
  apply in_map_iff in Hin as (i & <- & Hi). apply in_seq in Hi.
  pose proof (@window_start_in_text (Z.of_nat (String.length text))
                (chunk_size - overlap) i ltac:(lia) ltac:(lia)) as Hs.
  assert (0 <= Z.of_nat i * (chunk_size - overlap))
    by (apply Z.mul_nonneg_nonneg; lia).
  rewrite slice_length by lia. lia.
Qed.

(** [chunk_text] in terms of windows. *)
Lemma chunk_text_all_windows (text : string) (chunk_size overlap : Z) :
  overlap < chunk_size ->
  chunk_text text chunk_size overlap =
  Some (map (window text chunk_size overlap)
            (seq 0 (Z.to_nat (ceil_div (Z.of_nat (String.length text))
                                       (chunk_size - overlap))))).
Proof.
  intros Hlt. unfold chunk_text.
  rewrite chunk_loop_windows by lia.
  rewrite Z.sub_0_r, Z.max_r by lia. reflexivity.
Qed.

Lemma nth_error_window (text : string) (cs ov : Z) (n i : nat) (c : string) :
  nth_error (map (window text cs ov) (seq 0 n)) i = Some c ->
  (i < n)%nat /\ window text cs ov i = c.
Proof.
  rewrite nth_error_map, nth_error_seq.
  destruct (Nat.ltb_spec i n) as [Hi|Hi]; [|discriminate].
  intros Hc. split; [assumption|]. now injection Hc.
Qed.

(** Two windows that follow each other share [ov] characters. *)
Lemma window_overlap (text : string) (cs ov : Z) (i : nat) :
  ov < cs ->
  0 <= ov ->
  Z.of_nat (S i) * (cs - ov) < Z.of_nat (String.length text) ->
  slice_from (window text cs ov i) (cs - ov) =
  slice (window text cs ov (S i)) 0 ov.
Proof.
  intros Hlt Hov Hs. unfold window.
  assert (Hp : 0 <= Z.of_nat i * (cs - ov))
    by (apply Z.mul_nonneg_nonneg; lia).
  assert (Hq : Z.of_nat (S i) * (cs - ov) = Z.of_nat i * (cs - ov) + (cs - ov))
    by lia.
  rewrite Hq in *.
  generalize dependent (Z.of_nat i * (cs - ov)). intros p Hs Hp _.
  apply chars_inj.
  rewrite chars_slice_from, chars_slice_prefix by lia.
  rewrite !chars_slice by lia.
  rewrite skipn_firstn_comm, skipn_skipn, firstn_firstn.
  generalize dependent (Z.of_nat (String.length text)). intros L Hs.
  rewrite (Z.min_l p L), (Z.min_l (p + (cs - ov)) L) by lia.
  replace (Z.to_nat (p + (cs - ov))) with (Z.to_nat (cs - ov) + Z.to_nat p)%nat
    by lia.
  f_equal.
  destruct (Z.le_gt_cases (p + cs) L);
    [rewrite (Z.min_l (p + cs) L) by lia|rewrite (Z.min_r (p + cs) L) by lia];
    (destruct (Z.le_gt_cases (p + (cs - ov) + cs) L);
     [rewrite (Z.min_l (p + (cs - ov) + cs) L) by lia
     |rewrite (Z.min_r (p + (cs - ov) + cs) L) by lia]); lia.
Qed.

(** ** Properties of the chunks *)

Local Open Scope string_scope.

(** X1: when [overlap < chunk_size], [chunk_text] returns the windows
    [text[i*step : i*step + chunk_size]], [step = chunk_size - overlap], for
    [i] from 0 up to the ceiling of [len(text) / step], in this order. *)
Theorem chunk_text_windows (text : string) (chunk_size overlap : Z) :
  overlap < chunk_size ->
  chunk_text text chunk_size overlap =
  Some (map (window text chunk_size overlap)
            (seq 0 (Z.to_nat (ceil_div (Z.of_nat (String.length text))
                                       (chunk_size - overlap))))).
Proof.
  intros Hlt. unfold chunk_text.
  rewrite chunk_loop_windows by lia.
  rewrite Z.sub_0_r, Z.max_r by lia. reflexivity.
Qed.

Lemma chunk_text_windows_witness :
  chunk_text "abcdefg" 3 1 =
  Some (map (window "abcdefg" 3 1)
            (seq 0 (Z.to_nat (ceil_div (Z.of_nat (String.length "abcdefg"))
                                       (3 - 1))))).
Proof. apply (@chunk_text_windows "abcdefg" 3 1). lia. Defined.

(** X2: for [chunk_size > overlap >= 0], no chunk is empty and no chunk is
    longer than [chunk_size]. *)
Theorem chunk_text_sizes (text : string) (chunk_size overlap : Z)
        (chunks : list string) :
  overlap < chunk_size ->
  0 <= overlap ->
  chunk_text text chunk_size overlap = Some chunks ->
  Forall (fun chunk => 0 < Z.of_nat (String.length chunk) <= chunk_size)
         chunks.
Proof.
  intros Hlt Hov E. apply Forall_forall. intros chunk Hin.
  exact (@chunk_sizes text chunk_size overlap chunks chunk Hlt Hov E Hin).
Qed.

Lemma chunk_text_sizes_witness :
  Forall (fun chunk => 0 < Z.of_nat (String.length chunk) <= 4)
         ["abcd"; "cde"; "e"].
Proof.
  apply (@chunk_text_sizes "abcde" 4 2 ["abcd"; "cde"; "e"]);
    [lia|lia|reflexivity].
Defined.

(** X3: for [chunk_size > overlap >= 0], two chunks that follow each other
    share their overlap: what the earlier one holds from position
    [chunk_size - overlap] on is what the later one holds before position
    [overlap]. *)
Theorem chunk_text_overlap (text : string) (chunk_size overlap : Z)
        (chunks : list string) (i : nat) (a b : string) :
  overlap < chunk_size ->
  0 <= overlap ->
  chunk_text text chunk_size overlap = Some chunks ->
  nth_error chunks i = Some a ->
  nth_error chunks (S i) = Some b ->
  slice_from a (chunk_size - overlap) = slice b 0 overlap.
Proof.
  intros Hlt Hov E Ha Hb.
  rewrite chunk_text_all_windows in E by assumption. injection E as <-.
  apply nth_error_window in Ha as [Hi <-].
  apply nth_error_window in Hb as [HSi <-].
  apply window_overlap; try assumption.
  apply window_start_in_text; [lia|assumption].
Qed.

Lemma chunk_text_overlap_witness :
  slice_from "abcd" (4 - 2) = slice "cde" 0 2.
Proof.
  apply (@chunk_text_overlap "abcde" 4 2 ["abcd"; "cde"; "e"] 0 "abcd" "cde");
    [lia|lia|reflexivity|reflexivity|reflexivity].
Defined.

End WindowFacts.

(* ------------------------------------------------------------------------ *)
(** ** More on the vector store *)

Module StoreFacts.
Import PyStr Chunker Numpy NumpyFacts VectorStore VectorStoreFacts.
Import InvariantFacts.

Lemma combine_fst_firstn (A B : Type) (l : list A) (l' : list B) :
  map fst (combine l l') = firstn (Nat.min (List.length l) (List.length l')) l.
Proof.
  revert l'; induction l as [|a l IH]; intros [|b l']; simpl;
    try reflexivity.
  now rewrite IH.
Qed.

Lemma combine_snd_firstn (A B : Type) (l : list A) (l' : list B) :
  map snd (combine l l') =
  firstn (Nat.min (List.length l) (List.length l')) l'.
Proof.
  revert l'; induction l as [|a l IH]; intros [|b l']; simpl;
    try reflexivity.
  now rewrite IH.
Qed.

Lemma combine_seq_nth_error (A : Type) (l : list A) (start i j : nat)
      (x : A) :
  nth_error (combine (seq start (List.length l)) l) i = Some (j, x) ->
  j = (start + i)%nat /\ nth_error l i = Some x.
Proof.
  revert start i; induction l as [|a l IH]; intros start i H.
  - destruct i; discriminate.
  - destruct i as [|i]; simpl in H.
    + injection H as <- <-. split; [lia|reflexivity].
    + apply IH in H as [-> H]. split; [lia|assumption].
Qed.

Section Store.
Context {EM : EmbeddingModel} {FS : FileSystem}.

Lemma append_pairs_fold (pairs : list (Document * embedding)) (self : t) :
  fold_left append_pair pairs self =
  {| documents := documents self ++ map fst pairs;
     embeddings := embeddings self ++ map snd pairs |}.
Proof.
  revert self; induction pairs as [|p pairs IH]; intros self; simpl.
  - rewrite !app_nil_r. now destruct self.
  - rewrite IH. simpl. now rewrite <- !app_assoc.
Qed.

Lemma add_documents_appends (self : t) (disk : Disk) (w : save_outcome)
      (docs : list Document) :
  let embs := get_embeddings (map content docs) in
  let n := Nat.min (List.length docs) (List.length embs) in
  documents (fst (add_documents self disk w docs)) =
    documents self ++ firstn n docs /\
  embeddings (fst (add_documents self disk w docs)) =
    embeddings self ++ firstn n embs.
Proof.
  cbv zeta. unfold add_documents. cbn [fst].
  rewrite append_pairs_fold. cbn [documents embeddings].
  now rewrite combine_fst_firstn, combine_snd_firstn.
Qed.

Lemma collect_raises (docs : list Document) (similarities : list Q)
      (idxs : list nat) (acc : list SearchResult) :
  Exists (fun i => (List.length docs <= i)%nat) idxs ->
  collect docs similarities idxs acc = Raised IndexError.
Proof.
  revert acc; induction idxs as [|i idxs IH]; intros acc H.
  - inversion H.
  - simpl. destruct (nth_error docs i) eqn:E; [|reflexivity].
    apply IH. apply Exists_cons in H as [H|H]; [|assumption].
    apply nth_error_None in H. congruence.
Qed.
End Store.

(** ** Properties of the store *)

Import Fixture.
Local Open Scope string_scope.

(** X4: [add_documents] appends the documents and the embeddings pairwise:
    with [n] the smaller of the number of documents and the number of
    embeddings the provider returns, the first [n] documents and the first
    [n] embeddings are appended, and the documents beyond [n] are dropped. *)
Theorem add_documents_zip {EM : EmbeddingModel} (self : t) (disk : Disk)
        (w : save_outcome) (docs : list Document) :
  let embs := get_embeddings (map content docs) in
  let n := Nat.min (List.length docs) (List.length embs) in
  documents (fst (add_documents self disk w docs)) =
    (documents self ++ firstn n docs)%list /\
  embeddings (fst (add_documents self disk w docs)) =
    (embeddings self ++ firstn n embs)%list /\
  List.length (documents (fst (add_documents self disk w docs))) =
    (List.length (documents self) + n)%nat.
Proof.
  intros embs n.
  destruct (add_documents_appends self disk w docs) as [Hd He].
  fold embs in Hd, He. fold n in Hd, He.
  split; [exact Hd|]. split; [exact He|].
  rewrite Hd, length_app, length_firstn. lia.
Qed.

(** X5: persistence round trip.  A store that [add_documents] has saved
    completely and that holds a document is what the constructor gives back
    from the saved pair, without seeding and without writing. *)
Theorem add_then_init {EM : EmbeddingModel} {FS : FileSystem}
        (self : t) (disk : Disk) (docs : list Document) (w : save_outcome) :
  documents (fst (add_documents self disk SaveCompletes docs)) <> [] ->
  init (snd (add_documents self disk SaveCompletes docs)) w =
  Some (fst (add_documents self disk SaveCompletes docs),
        snd (add_documents self disk SaveCompletes docs)).
Proof.
  unfold add_documents. cbn [fst snd save_store].
  set (self' := fold_left append_pair _ self). intros Hne.
  unfold init, load_store. cbn [documents_pkl embeddings_pkl documents].
  destruct (documents self') eqn:E; [contradiction|].
  rewrite <- E. now destruct self'.
Qed.

Lemma add_then_init_witness :
  init (snd (add_documents compass blank SaveCompletes [chunk "east" 3]))
       SaveFailsAtOnce =
  Some (fst (add_documents compass blank SaveCompletes [chunk "east" 3]),
        snd (add_documents compass blank SaveCompletes [chunk "east" 3])).
Proof.
  apply (@add_then_init provider files compass blank [chunk "east" 3]
                        SaveFailsAtOnce).
  discriminate.
Defined.

(** X6: seeding.  When no document is restored from the persisted pair, the
    constructor returns a store in which every document comes from the
    default report: its source is the report's file name, its file type is
    "pdf", it is marked as default, and its chunk id is its position. *)
Theorem init_seeds_default {EM : EmbeddingModel} {FS : FileSystem}
        (disk : Disk) (w : save_outcome) :
  documents (load_store empty disk) = [] ->
  exists self disk',
    init disk w = Some (self, disk') /\
    forall i d,
      nth_error (documents self) i = Some d ->
      source d = default_source /\
      file_type (metadata d) = "pdf" /\
      is_default (metadata d) = true /\
      chunk_id d = i.
Proof.
  intros Hl. unfold init. rewrite Hl. unfold initialize_with_default.
  destruct (truthy DocumentProcessor.load_default_pdf).
  - destruct (chunk_text_default DocumentProcessor.load_default_pdf)
      as (chunks & Ec & _).
    rewrite Ec. do 2 eexists. split.
    + rewrite (surjective_pairing (add_documents _ _ _ _)). reflexivity.
    + intros i d H.
      destruct (add_documents_appends (load_store empty disk) disk w
                  (map default_chunk (enumerate chunks))) as [Hd _].
      rewrite Hd, Hl in H. cbn [app] in H.
      rewrite nth_error_firstn in H.
      destruct (Nat.ltb i _); [|discriminate].
      rewrite nth_error_map in H.
      destruct (nth_error (enumerate chunks) i) as [[j c]|] eqn:E;
        [|discriminate].
      injection H as <-. apply combine_seq_nth_error in E as [-> _].
      repeat split.
  - exists (load_store empty disk), disk. split; [reflexivity|].
    intros i d H. rewrite Hl in H. destruct i; discriminate.
Qed.

Lemma init_seeds_default_witness :
  (exists self disk',
      init (EM := uniform) (FS := online) fresh SaveCompletes
        = Some (self, disk') /\
      forall i d,
        nth_error (documents self) i = Some d ->
        source d = default_source /\
        file_type (metadata d) = "pdf" /\
        is_default (metadata d) = true /\
        chunk_id d = i) /\
  option_map (fun r => map (fun d => String.length (content d))
                           (documents (fst r)))
             (init (EM := uniform) (FS := online) fresh SaveCompletes)
  = Some [1000; 700]%nat.
Proof.
  split.
  - apply (@init_seeds_default uniform online fresh SaveCompletes).
    reflexivity.
  - vm_compute. reflexivity.
Defined.

(** X7: a store restored from a pair whose documents can be read and whose
    embeddings cannot holds documents without embeddings, and on it [search]
    raises a ValueError for every query that has an embedding. *)
Theorem half_loaded_search_raises {EM : EmbeddingModel} {FS : FileSystem}
        (disk : Disk) (w : save_outcome) (d : Document) (ds : list Document)
        (query : string) (top_k : Z) (qe : embedding) :
  documents_pkl disk = Stored (d :: ds) ->
  (forall embs, embeddings_pkl disk <> Stored embs) ->
  get_single_embedding query = Some qe ->
  exists self,
    init disk w = Some (self, disk) /\
    documents self = d :: ds /\
    embeddings self = [] /\
    search self query top_k = Raised ValueError.
Proof.
  intros Hd He Hq.
  assert (Hl : load_store empty disk =
               {| documents := d :: ds; embeddings := [] |}).
  { unfold load_store. rewrite Hd.
    destruct (embeddings_pkl disk) as [| |embs]; try reflexivity.
    now destruct (He embs). }
  eexists. unfold init. rewrite Hl. cbn [documents].
  repeat split. unfold search. cbn [documents embeddings]. now rewrite Hq.
Qed.

Lemma half_loaded_search_raises_witness :
  exists self,
    init half_saved SaveCompletes = Some (self, half_saved) /\
    documents self = [chunk "north" 0] /\
    embeddings self = [] /\
    search self "north" 3 = Raised ValueError.
Proof.
  apply (@half_loaded_search_raises provider files half_saved SaveCompletes
           (chunk "north" 0) [] "north" 3 [1; 0]%Q);
    [reflexivity|discriminate|reflexivity].
Defined.

(** X8: on a store that holds at least one document and more embeddings
    than documents, [search] raises an IndexError for every query that has
    an embedding as soon as [top_k] covers all the embeddings: the index of
    an embedding that has no document is then among those it looks up.  (On
    a store without documents [search] returns the empty list before
    that.) *)
Theorem search_index_error {EM : EmbeddingModel} (self : t) (query : string)
        (top_k : Z) (qe : embedding) :
  documents self <> [] ->
  (List.length (documents self) < List.length (embeddings self))%nat ->
  Z.of_nat (List.length (embeddings self)) <= top_k ->
  get_single_embedding query = Some qe ->
  search self query top_k = Raised IndexError.
Proof.
  intros Hne Hlt Hk Hq. unfold search. rewrite Hq.
  destruct (documents self) as [|d docs] eqn:Ed; [contradiction|].
  destruct (embeddings self) as [|e embs] eqn:Ee; [simpl in Hlt; lia|].
  cbn [cosine_similarity bind_outcome]. apply collect_raises.
  apply Exists_exists. exists (List.length (d :: docs)). split; [|lia].
  set (similarities := map (cosine qe) (e :: embs)).
  assert (HM : List.length similarities = List.length (e :: embs))
    by apply length_map.
  apply (Permutation_in _
           (Permutation_sym (@top_indices_all similarities top_k
                               ltac:(rewrite HM; exact Hk)))).
  apply in_seq. rewrite HM. lia.
Qed.

Lemma search_index_error_witness :
  search lopsided "north" 2 = Raised IndexError.
Proof.
  apply (@search_index_error provider lopsided "north" 2 [1; 0]%Q);
    [discriminate|simpl; lia|simpl; lia|reflexivity].
Defined.

(** X9: on a store with as many embeddings as documents, every result of
    [search] is a stored document together with the cosine of the query's
    embedding and the embedding stored at the same position. *)
Theorem search_scores {EM : EmbeddingModel} (self : t) (query : string)
        (top_k : Z) (qe : embedding) (results : list SearchResult)
        (r : SearchResult) :
  balanced self ->
  get_single_embedding query = Some qe ->
  search self query top_k = Returned results ->
  In r results ->
  exists i e,
    nth_error (documents self) i = Some (document r) /\
    nth_error (embeddings self) i = Some e /\
    similarity r = cosine qe e.
Proof.
  intros Hbal Hq Hs Hr.
  destruct (documents self) as [|d0 docs] eqn:Ed.
  { unfold search in Hs. rewrite Ed in Hs. injection Hs as <-. inversion Hr. }
  rewrite <- Ed in *.
  rewrite (@search_hits _ self query top_k qe d0) in Hs;
    [|congruence|assumption|assumption].
  injection Hs as <-. apply in_map_iff in Hr as (i & <- & Hi).
  apply top_indices_incl in Hi. rewrite length_map in Hi.
  destruct (nth_error (embeddings self) i) as [e|] eqn:Ee;
    [|apply nth_error_None in Ee; lia].
  exists i, e. cbn [hit document similarity]. repeat split.
  - apply nth_error_nth'. unfold balanced in Hbal. lia.
  - assumption.
  - apply nth_error_nth. now rewrite nth_error_map, Ee.
Qed.

Lemma search_scores_witness :
  exists i e,
    nth_error (documents compass) i =
      Some (document {| document := chunk "east" 2; similarity := 20 # 25 |})
    /\ nth_error (embeddings compass) i = Some e
    /\ similarity {| document := chunk "east" 2; similarity := 20 # 25 |}
       = cosine [3 # 5; 4 # 5]%Q e.
Proof.
  apply (@search_scores provider compass "north-east" 1 [3 # 5; 4 # 5]%Q
           [{| document := chunk "east" 2; similarity := 20 # 25 |}]);
    [reflexivity|reflexivity|reflexivity|simpl; auto].
Defined.

(** X10: a negative [top_k] is a slice bound counted from the end: on a
    store of [N] documents with as many embeddings, and for a query that
    has an embedding, [search] then returns [max(N + top_k, 0)] results,
    and no record that it leaves out is more similar to the query than one
    that it returns. *)
Theorem search_negative_top_k {EM : EmbeddingModel} (self : t)
        (query : string) (top_k : Z) (qe : embedding) (d0 : Document) :
  documents self <> [] ->
  balanced self ->
  get_single_embedding query = Some qe ->
  top_k < 0 ->
  let N := List.length (documents self) in
  let similarities := map (cosine qe) (embeddings self) in
  let sim := fun i => nth i similarities 0%Q in
  exists idxs,
    search self query top_k =
      Returned (map (hit (documents self) similarities d0) idxs) /\
    Z.of_nat (List.length idxs) = Z.max 0 (Z.of_nat N + top_k) /\
    (forall i j, In i idxs -> (j < N)%nat -> ~ In j idxs ->
                 (sim j <= sim i)%Q).
Proof.
  intros Hne Hbal Hq Hk N similarities sim.
  assert (HN : List.length similarities = N).
  { unfold similarities, N. rewrite length_map. now symmetry. }
  exists (top_indices similarities top_k).
  split; [now apply search_hits|]. split.
  - unfold top_indices, list_slice_to, slice_bound.
    rewrite rev_argsort_length, length_firstn, rev_argsort_length, HN.
    destruct (Z.ltb_spec top_k 0); lia.
  - intros i j Hi Hj Hnj.
    apply (top_indices_best similarities top_k); [assumption| |assumption].
    now rewrite HN.
Qed.

Lemma search_negative_top_k_witness :
  exists idxs,
    search compass "north-east" (-1) =
      Returned (map (hit (documents compass)
                         (map (cosine [3 # 5; 4 # 5]%Q) (embeddings compass))
                         (chunk "" 0)) idxs) /\
    Z.of_nat (List.length idxs) = Z.max 0 (Z.of_nat 3 + -1) /\
    (forall i j, In i idxs -> (j < 3)%nat -> ~ In j idxs ->
                 (nth j (map (cosine [3 # 5; 4 # 5]%Q) (embeddings compass)) 0
                  <= nth i (map (cosine [3 # 5; 4 # 5]%Q)
                                (embeddings compass)) 0)%Q).
Proof.
  apply (@search_negative_top_k provider compass "north-east" (-1)
                                [3 # 5; 4 # 5]%Q (chunk "" 0));
    [discriminate|reflexivity|reflexivity|lia].
Defined.

End StoreFacts.

(* ------------------------------------------------------------------------ *)
(** ** More on ingestion and retrieval *)

Module RetrievalFacts.
Import PyStr Chunker VectorStore DocumentProcessor RAGSystem.
Import InvariantFacts WindowFacts StoreFacts RAGFacts.
Local Open Scope string_scope.

(** *** Substrings of concatenations *)

Lemma prefix_refl (k : string) : prefix k k = true.
Proof.
  induction k as [|c k IH]; [reflexivity|]. simpl.
  now destruct (ascii_dec c c).
Qed.

Lemma prefix_append (k s t : string) :
  prefix k s = true -> prefix k (s ++ t) = true.
Proof.
  revert s; induction k as [|c k IH]; intros s H.
  - now destruct (s ++ t).
  - destruct s as [|d s]; [discriminate|]. simpl in *.
    destruct (ascii_dec c d); [now apply IH|discriminate].
Qed.

Lemma contains_prefix (k s : string) : prefix k s = true -> contains k s = true.
Proof. intros H. destruct s; cbn [contains]; now rewrite H. Qed.

Lemma contains_append_l (k a b : string) :
  contains k a = true -> contains k (a ++ b) = true.
Proof.
  induction a as [|c a IH]; intros H.
  - cbn [contains] in H. rewrite orb_false_r in H.
    apply contains_prefix. now apply (@prefix_append k "" b).
  - cbn [contains append] in *. apply orb_true_iff in H as [H|H].
    + apply (@prefix_append k (String c a) b) in H.
      cbn [append] in H. now rewrite H.
    + rewrite (IH H). apply orb_true_r.
Qed.

Lemma contains_append_r (k a b : string) :
  contains k b = true -> contains k (a ++ b) = true.
Proof.
  intros H. induction a as [|c a IH]; [assumption|].
  cbn [contains append]. rewrite IH. apply orb_true_r.
Qed.

Lemma contains_refl (k : string) : contains k k = true.
Proof. apply contains_prefix, prefix_refl. Qed.

(** *** A word that is not in lower case is in no lowered text *)

Lemma prefix_of_lower (k s : string) :
  prefix k (lower s) = true -> lower k = k.
Proof.
  revert s; induction k as [|c k IH]; intros s H; [reflexivity|].
  destruct s as [|d s]; [discriminate|]. simpl in *.
  destruct (ascii_dec c (lower_char d)) as [->|]; [|discriminate].
  now rewrite lower_char_idem, (IH s H).
Qed.

Lemma contains_of_lower (k s : string) :
  contains k (lower s) = true -> lower k = k.
Proof.
  induction s as [|d s IH]; cbn [contains lower]; intros H.
  - rewrite orb_false_r in H. now apply (@prefix_of_lower k "").
  - apply orb_true_iff in H as [H|H]; [|now apply IH].
    now apply (@prefix_of_lower k (String d s)).
Qed.

Lemma not_lower_never_in (k s : string) :
  lower k <> k -> contains k (lower s) = false.
Proof.
  intros H. destruct (contains k (lower s)) eqn:E; [|reflexivity].
  now apply contains_of_lower in E.
Qed.

(** *** The formatted context *)

Lemma format_results_keeps (k : string) (l : list (nat * SearchResult))
      (acc : string) :
  contains k acc = true ->
  contains k (fold_left format_result l acc) = true.
Proof.
  revert acc; induction l as [|ir l IH]; intros acc H; [assumption|].
  simpl. apply IH. unfold format_result. now apply contains_append_l.
Qed.

Lemma format_results_holds (l : list (nat * SearchResult)) (acc : string)
      (ir : nat * SearchResult) :
  In ir l ->
  contains (content (document (snd ir))) (fold_left format_result l acc)
    = true /\
  contains (basename (source (document (snd ir))))
           (fold_left format_result l acc) = true.
Proof.
  revert acc; induction l as [|x l IH]; intros acc H; [inversion H|].
  destruct H as [->|H]; [|now apply IH].
  simpl. split; apply format_results_keeps; unfold format_result.
  - apply contains_append_r, contains_append_r, contains_append_l,
      contains_refl.
  - apply contains_append_r, contains_append_l.
    apply contains_append_r, contains_append_r, contains_append_r.
    apply contains_append_l, contains_refl.
Qed.

Lemma enumerate_from1_In (A : Type) (l : list A) (x : A) :
  In x l -> exists i, In (i, x) (enumerate_from1 l).
Proof.
  unfold enumerate_from1. generalize 1%nat.
  induction l as [|a l IH]; intros start H; [inversion H|].
  destruct H as [->|H].
  - exists start. now left.
  - destruct (IH (S start) H) as (i & Hi). exists i. now right.
Qed.

(** *** The documents of a batch *)

Section Batch.
Context {EM : EmbeddingModel} {FS : FileSystem}.

Lemma process_files_from_batch (all file_paths : list string)
      (acc docs : list Document) :
  incl file_paths all ->
  Forall (from_batch all) acc ->
  process_files file_paths acc = Some docs ->
  Forall (from_batch all) docs.
Proof.
  revert acc; induction file_paths as [|p ps IH]; intros acc Hi Ha H.
  - simpl in H. now injection H as <-.
  - assert (Hp : In p all) by (apply Hi; now left).
    assert (Hps : incl ps all) by (intros x Hx; apply Hi; now right).
    cbn [process_files] in H.
    destruct (path_exists p) eqn:Ex; cbn [negb] in H; [|now apply (IH acc)].
    set (ext := lower (splitext_ext p)) in *.
    destruct (extract_by_ext ext p) as [text|] eqn:Et;
      [|now apply (IH acc)].
    destruct (chunk_text text default_chunk_size default_overlap)
      as [chunks|]; [|discriminate].
    apply (IH _ Hps) in H; [assumption|].
    apply Forall_app. split; [assumption|].
    apply Forall_forall. intros d Hd.
    apply in_map_iff in Hd as (ic & <- & _).
    unfold from_batch, uploaded_chunk. cbn [source metadata file_type
                                              is_default].
    repeat split; try assumption.
    unfold extract_by_ext in Et. fold ext.
    destruct (String.eqb_spec ext ".pdf") as [->|]; [simpl; auto|].
    destruct (String.eqb_spec ext ".docx") as [->|]; [simpl; auto|].
    destruct (String.eqb_spec ext ".txt") as [->|]; [simpl; auto|].
    discriminate.
Qed.

(** Every document of a batch holds a chunk of one to a thousand
    characters. *)
Lemma process_files_chunk_sizes (file_paths : list string)
      (acc docs : list Document) :
  Forall (fun d => 0 < Z.of_nat (String.length (content d))
                   <= default_chunk_size) acc ->
  process_files file_paths acc = Some docs ->
  Forall (fun d => 0 < Z.of_nat (String.length (content d))
                   <= default_chunk_size) docs.
Proof.
  revert acc; induction file_paths as [|p ps IH]; intros acc Ha H.
  - simpl in H. now injection H as <-.
  - cbn [process_files] in H.
    destruct (path_exists p); cbn [negb] in H; [|now apply (IH acc)].
    destruct (extract_by_ext (lower (splitext_ext p)) p) as [text|];
      [|now apply (IH acc)].
    destruct (chunk_text text default_chunk_size default_overlap)
      as [chunks|] eqn:Ec; [|discriminate].
    apply IH in H; [assumption|].
    apply Forall_app. split; [assumption|].
    apply Forall_forall. intros d Hd.
    apply in_map_iff in Hd as ([i c] & <- & Hic).
    cbn [uploaded_chunk content snd].
    apply (@chunk_sizes text default_chunk_size default_overlap chunks c);
      [reflexivity|discriminate|assumption|].
    unfold enumerate in Hic. now apply in_combine_r in Hic.
Qed.
End Batch.

Lemma retrieve_holding {EM : EmbeddingModel} (store : VectorStore.t)
      (query : string) (top_k : Z) (results : list SearchResult)
      (r : SearchResult) :
  search store query top_k = Returned results ->
  In r results ->
  exists context,
    retrieve_relevant_context store query top_k
      = Returned (context, any_in financial_keywords (lower query)) /\
    truthy context = true /\
    contains (content (document r)) context = true /\
    contains (basename (source (document r))) context = true.
Proof.
  intros E Hr. unfold retrieve_relevant_context. rewrite E.
  cbn [bind_outcome].
  destruct results as [|r0 rs]; [inversion Hr|].
  eexists. split; [reflexivity|].
  split; [now apply format_results_truthy|].
  destruct (enumerate_from1_In _ _ Hr) as (i & Hi).
  apply (format_results_holds _ context_header (i, r) Hi).
Qed.

(** ** Properties of ingestion and retrieval *)

Import Fixture.

(** X11: [process_and_store_documents] only appends: the documents and the
    embeddings the store held stay in front, equally many of each are added,
    and no more than the count it returns (fewer when the provider returns
    fewer embeddings than there are chunks). *)
Theorem ingest_appends {EM : EmbeddingModel} {FS : FileSystem}
        (store store' : VectorStore.t) (disk disk' : Disk) (w : save_outcome)
        (file_paths : list string) (n : nat) :
  process_and_store_documents store disk w file_paths
    = Some (store', disk', n) ->
  exists new_docs new_embs,
    documents store' = (documents store ++ new_docs)%list /\
    embeddings store' = (embeddings store ++ new_embs)%list /\
    List.length new_docs = List.length new_embs /\
    (List.length new_docs <= n)%nat.
Proof.
  unfold process_and_store_documents.
  destruct (process_files file_paths []) as [docs|]; [|discriminate].
  destruct (add_documents_appends store disk w docs) as [Hd He].
  destruct (add_documents store disk w docs) as [s d]. cbn [fst] in Hd, He.
  intros [= <- <- <-]. do 2 eexists.
  split; [exact Hd|]. split; [exact He|].
  rewrite !length_firstn. lia.
Qed.

Lemma ingest_appends_witness :
  exists new_docs new_embs,
    documents (fst (add_documents compass blank SaveCompletes
                      [uploaded_chunk "a.txt" ".txt" (0%nat, "north");
                       uploaded_chunk "notes/b.TXT" ".txt" (0%nat, "east")]))
      = (documents compass ++ new_docs)%list /\
    embeddings (fst (add_documents compass blank SaveCompletes
                      [uploaded_chunk "a.txt" ".txt" (0%nat, "north");
                       uploaded_chunk "notes/b.TXT" ".txt" (0%nat, "east")]))
      = (embeddings compass ++ new_embs)%list /\
    List.length new_docs = List.length new_embs /\
    (List.length new_docs <= 2)%nat.
Proof.
  apply (@ingest_appends provider files compass _ blank
           (snd (add_documents compass blank SaveCompletes
                   [uploaded_chunk "a.txt" ".txt" (0%nat, "north");
                    uploaded_chunk "notes/b.TXT" ".txt" (0%nat, "east")]))
           SaveCompletes ["a.txt"; "broken.pdf"; "notes/b.TXT"] 2%nat).
  reflexivity.
Defined.

(** X12: every document that [process_and_store_documents] adds comes from
    a path of the batch that exists; its file type is the lowered extension
    of that path, one of ".pdf", ".docx" and ".txt"; and it is not marked as
    default. *)
Theorem ingest_metadata {EM : EmbeddingModel} {FS : FileSystem}
        (store store' : VectorStore.t) (disk disk' : Disk) (w : save_outcome)
        (file_paths : list string) (n : nat) :
  process_and_store_documents store disk w file_paths
    = Some (store', disk', n) ->
  exists new_docs,
    documents store' = (documents store ++ new_docs)%list /\
    Forall (from_batch file_paths) new_docs.
Proof.
  unfold process_and_store_documents.
  destruct (process_files file_paths []) as [docs|] eqn:E; [|discriminate].
  destruct (add_documents_appends store disk w docs) as [Hd _].
  destruct (add_documents store disk w docs) as [s d]. cbn [fst] in Hd.
  intros [= <- <- <-]. eexists. split; [exact Hd|].
  eapply process_files_from_batch in E; [|apply incl_refl|constructor].
  rewrite Forall_forall in *. intros x Hx. apply E.
  now apply NumpyFacts.In_firstn in Hx.
Qed.

Lemma ingest_metadata_witness :
  exists new_docs,
    documents (fst (add_documents compass blank SaveCompletes
                      [uploaded_chunk "a.txt" ".txt" (0%nat, "north");
                       uploaded_chunk "notes/b.TXT" ".txt" (0%nat, "east")]))
      = (documents compass ++ new_docs)%list /\
    Forall (from_batch ["a.txt"; "broken.pdf"; "notes/b.TXT"]) new_docs.
Proof.
  apply (@ingest_metadata provider files compass _ blank
           (snd (add_documents compass blank SaveCompletes
                   [uploaded_chunk "a.txt" ".txt" (0%nat, "north");
                    uploaded_chunk "notes/b.TXT" ".txt" (0%nat, "east")]))
           SaveCompletes ["a.txt"; "broken.pdf"; "notes/b.TXT"] 2%nat).
  reflexivity.
Defined.

(** X13: the context that [retrieve_relevant_context] returns is empty
    exactly when [search] returned no result. *)
Theorem retrieve_context_empty_iff {EM : EmbeddingModel}
        (store : VectorStore.t) (query : string) (top_k : Z)
        (context : string) (is_financial : bool) :
  retrieve_relevant_context store query top_k
    = Returned (context, is_financial) ->
  (context = "" <-> search store query top_k = Returned []).
Proof.
  intros H. destruct (search store query top_k) as [[|r rs]|e] eqn:E.
  - rewrite (retrieve_without_results _ _ _ E) in H.
    injection H as <- _. now split.
  - destruct (retrieve_with_results _ _ _ E) as (c & Hc & Ht).
    rewrite Hc in H. injection H as <- _.
    split; [intros ->; discriminate|discriminate].
  - unfold retrieve_relevant_context in H. rewrite E in H. discriminate.
Qed.

Lemma retrieve_context_empty_iff_witness :
  "" = "" <-> search compass "nowhere" 3 = Returned [].
Proof.
  apply (@retrieve_context_empty_iff provider compass "nowhere" 3 "" false).
  reflexivity.
Defined.

(** X14: the context holds, for every result of [search], the content of
    the document and the base name of its source. *)
Theorem retrieve_context_holds_results {EM : EmbeddingModel}
        (store : VectorStore.t) (query : string) (top_k : Z)
        (results : list SearchResult) (r : SearchResult) :
  search store query top_k = Returned results ->
  In r results ->
  exists context is_financial,
    retrieve_relevant_context store query top_k
      = Returned (context, is_financial) /\
    contains (content (document r)) context = true /\
    contains (basename (source (document r))) context = true.
Proof.
  intros E Hr.
  destruct (@retrieve_holding _ store query top_k results r E Hr)
    as (context & H & _ & Hc).
  now exists context, (any_in financial_keywords (lower query)).
Qed.

Lemma retrieve_context_holds_results_witness :
  exists context is_financial,
    retrieve_relevant_context compass "north-east" 1
      = Returned (context, is_financial) /\
    contains (content (document {| document := chunk "east" 2;
                                   similarity := 20 # 25 |})) context = true
    /\
    contains (basename (source (document {| document := chunk "east" 2;
                                            similarity := 20 # 25 |})))
             context = true.
Proof.
  apply (@retrieve_context_holds_results provider compass "north-east" 1
           [{| document := chunk "east" 2; similarity := 20 # 25 |}]);
    [reflexivity|simpl; auto].
Defined.

(** X15: the keyword test of [retrieve_relevant_context] runs on the lowered
    query, so the keywords "AWS" and "EBITDA" never match: on every query the
    test gives what it gives with the nineteen keywords in lower case
    alone. *)
Theorem financial_keywords_uppercase_dead (query : string) :
  any_in financial_keywords (lower query) =
  any_in lowercase_financial_keywords (lower query).
Proof.
  unfold any_in, financial_keywords, lowercase_financial_keywords.
  cbn [existsb].
  rewrite (@not_lower_never_in "AWS" query) by discriminate.
  rewrite (@not_lower_never_in "EBITDA" query) by discriminate.
  reflexivity.
Qed.

(** X24: every document that [process_and_store_documents] adds holds a
    chunk that is not empty and not longer than 1000 characters. *)
Theorem ingest_chunk_sizes {EM : EmbeddingModel} {FS : FileSystem}
        (store store' : VectorStore.t) (disk disk' : Disk) (w : save_outcome)
        (file_paths : list string) (n : nat) :
  process_and_store_documents store disk w file_paths
    = Some (store', disk', n) ->
  exists new_docs,
    documents store' = (documents store ++ new_docs)%list /\
    Forall (fun d => 0 < Z.of_nat (String.length (content d)) <= 1000)
           new_docs.
Proof.
  unfold process_and_store_documents.
  destruct (process_files file_paths []) as [docs|] eqn:E; [|discriminate].
  destruct (add_documents_appends store disk w docs) as [Hd _].
  destruct (add_documents store disk w docs) as [s d]. cbn [fst] in Hd.
  intros [= <- <- <-]. eexists. split; [exact Hd|].
  apply process_files_chunk_sizes in E; [|constructor].
  rewrite Forall_forall in *. intros x Hx. apply E.
  now apply NumpyFacts.In_firstn in Hx.
Qed.

Lemma ingest_chunk_sizes_witness :
  exists new_docs,
    documents (fst (add_documents compass blank SaveCompletes
                      [uploaded_chunk "a.txt" ".txt" (0%nat, "north");
                       uploaded_chunk "notes/b.TXT" ".txt" (0%nat, "east")]))
      = (documents compass ++ new_docs)%list /\
    Forall (fun d => 0 < Z.of_nat (String.length (content d)) <= 1000)
           new_docs.
Proof.
  apply (@ingest_chunk_sizes provider files compass _ blank
           (snd (add_documents compass blank SaveCompletes
                   [uploaded_chunk "a.txt" ".txt" (0%nat, "north");
                    uploaded_chunk "notes/b.TXT" ".txt" (0%nat, "east")]))
           SaveCompletes ["a.txt"; "broken.pdf"; "notes/b.TXT"] 2%nat).
  reflexivity.
Defined.

End RetrievalFacts.

(* ------------------------------------------------------------------------ *)
(** ** More on the turn *)

Module TurnFacts.
Import PyStr VectorStore DocumentProcessor RAGSystem WebSearchTool App.
Import RAGFacts RetrievalFacts AppFacts.
Local Open Scope string_scope.

Section Turn.
Context {EM : EmbeddingModel} {RM : Remote}.

(** The retrieval block returns unless [search] raises, and then raises the
    same exception. *)
Lemma rag_step_raises (store : VectorStore.t) (prompt : string)
      (use_rag : bool) (l : locals) (e : exn) :
  rag_step store prompt use_rag l = Raised e <->
  use_rag = true /\ search store prompt 3 = Raised e.
Proof.
  unfold rag_step. destruct use_rag.
  - unfold retrieve_relevant_context.
    destruct (search store prompt 3) as [[|r rs]|e'] eqn:E; cbn.
    + split; [discriminate|intros [_ H]; discriminate].
    + split; [discriminate|intros [_ H]; discriminate].
    + split; [intros [= ->]; now split|intros [_ [= ->]]; reflexivity].
  - split; [discriminate|intros [H _]; discriminate].
Qed.


Lemma list_slice_to_length (A : Type) (l : list A) (k : Z) :
  0 <= k -> Z.of_nat (List.length (list_slice_to l k)) <= k.
Proof.
  intros Hk. unfold list_slice_to, slice_bound.
  destruct (Z.ltb_spec k 0); [lia|]. rewrite length_firstn. lia.
Qed.

Lemma web_step_sources (prompt : string) (use_web_search : bool)
      (l : locals) :
  exists labels,
    sources (web_step prompt use_web_search l) = (sources l ++ labels)%list /\
    (List.length labels <= 3)%nat /\
    (use_web_search = false -> labels = []).
Proof.
  unfold web_step.
  destruct (use_web_search &&
            (needs_web_search l || should_use_web_search prompt)) eqn:E.
  - eexists. cbn [sources]. split; [reflexivity|].
    split; [|intros ->; discriminate].
    rewrite length_map.
    pose proof (@list_slice_to_length _ (results (web_search prompt)) 3
                  ltac:(lia)). lia.
  - exists []. rewrite app_nil_r. repeat split. simpl; lia.
Qed.
End Turn.

(** ** Properties of the turn *)

Import Fixture.

(** X16: the calls of a turn that returns.  The model is called once, last,
    with a budget of 150 tokens when the response mode is exactly "Concise"
    and of 1000 tokens otherwise; before that the web is searched once, for
    the prompt itself, when web search is enabled and
    [should_use_web_search] holds of the prompt, and not at all
    otherwise. *)
Theorem generate_response_calls {EM : EmbeddingModel} {RM : Remote}
        (store : VectorStore.t) (history : list Message)
        (prompt response_mode : string) (use_rag use_web_search : bool)
        (t : turn) :
  generate_response store history prompt response_mode use_rag use_web_search
    = Returned t ->
  turn_calls t =
  ((if use_web_search && should_use_web_search prompt
    then [WebSearch prompt] else []) ++
   [Generate (if String.eqb response_mode "Concise" then 150 else 1000)])%list.
Proof.
  unfold generate_response.
  destruct (rag_step store prompt use_rag _) as [l1|e] eqn:E;
    [|discriminate].
  apply rag_step_keeps in E as [Hn Hc]. cbn in Hn, Hc.
  cbn [bind_outcome]. intros [= <-]. cbn [turn_calls].
  rewrite web_step_calls, Hn, Hc. cbn [orb].
  now destruct (use_web_search && should_use_web_search prompt).
Qed.

Lemma generate_response_calls_witness :
  turn_calls news_turn =
  ((if true && should_use_web_search "latest news"
    then [WebSearch "latest news"] else []) ++
   [Generate (if String.eqb "Concise" "Concise" then 150 else 1000)])%list.
Proof.
  apply (@generate_response_calls provider remote empty [] "latest news"
           "Concise" false true news_turn).
  reflexivity.
Defined.

(** X17: a failure of retrieval is not absorbed.  When retrieval is on and
    [search] raises on the prompt, the turn raises the same exception:
    nothing in [generate_response] catches it. *)
Theorem retrieval_failure_propagates {EM : EmbeddingModel} {RM : Remote}
        (store : VectorStore.t) (history : list Message)
        (prompt response_mode : string) (use_web_search : bool) (e : exn) :
  search store prompt 3 = Raised e ->
  generate_response store history prompt response_mode true use_web_search
    = Raised e.
Proof.
  intros Hs. unfold generate_response.
  rewrite (proj2 (rag_step_raises store prompt true
                    {| context := ""; sources := [];
                       needs_web_search := false; calls := [] |} e)
                 (conj eq_refl Hs)).
  reflexivity.
Qed.

Lemma retrieval_failure_propagates_witness :
  generate_response (EM := provider) (RM := remote) lopsided []
                    "north" "Detailed" true true
    = Raised IndexError.
Proof.
  apply (@retrieval_failure_propagates provider remote lopsided []
           "north" "Detailed" true IndexError).
  reflexivity.
Defined.



(** X19: a web search that fails is absorbed.  With retrieval off and a
    search client that raises, a turn whose prompt triggers the web search
    still returns: it cites no source, and the context in the system prompt
    of its one model call is a line break followed by the notice
    "No relevant financial information found." *)
Theorem failed_web_search_absorbed {EM : EmbeddingModel} {RM : Remote}
        (store : VectorStore.t) (history : list Message)
        (prompt response_mode : string) :
  should_use_web_search prompt = true ->
  tavily_search prompt 3 = None ->
  generate_response store history prompt response_mode false true =
  Returned
    {| response :=
         llm_generate
           (history ++ [{| role := "user"; message_content := prompt |}])%list
           (system_prompt_of response_mode
              "
No relevant financial information found.")
           (if String.eqb response_mode "Concise" then 150 else 1000)
           (7 # 10)%Q;
       turn_sources := [];
       turn_calls :=
         [WebSearch prompt;
          Generate (if String.eqb response_mode "Concise"
                    then 150 else 1000)] |}.
Proof.
  intros Hs Ht. unfold generate_response, rag_step, web_step, web_search.
  cbn [bind_outcome needs_web_search orb andb]. rewrite Hs, Ht.
  reflexivity.
Qed.

Lemma failed_web_search_absorbed_witness :
  generate_response (EM := provider) (RM := offline) empty []
                    "latest news" "Detailed" false true =
  Returned
    {| response :=
         llm_generate (Remote := offline)
           ([] ++ [{| role := "user"; message_content := "latest news" |}])%list
           (system_prompt_of "Detailed"
              "
No relevant financial information found.")
           (if String.eqb "Detailed" "Concise" then 150 else 1000)
           (7 # 10)%Q;
       turn_sources := [];
       turn_calls :=
         [WebSearch "latest news";
          Generate (if String.eqb "Detailed" "Concise"
                    then 150 else 1000)] |}.
Proof.
  apply (@failed_web_search_absorbed provider offline empty [] "latest news"
           "Detailed"); reflexivity.
Defined.

(** X20: attribution.  When retrieval is on and one of the results of
    [search] has the default report as the base name of its source, the
    first source the turn cites is the label of the annual report. *)
Theorem default_report_attributed {EM : EmbeddingModel} {RM : Remote}
        (store : VectorStore.t) (history : list Message)
        (prompt response_mode : string) (use_web_search : bool)
        (results : list SearchResult) (r : SearchResult) :
  search store prompt 3 = Returned results ->
  In r results ->
  basename (source (document r)) = default_source ->
  exists t,
    generate_response store history prompt response_mode true use_web_search
      = Returned t /\
    hd_error (turn_sources t) =
      Some (page_icon ++ " Amazon 2023 Annual Report").
Proof.
  intros E Hr Hb.
  destruct (@retrieve_holding _ store prompt 3 results r E Hr)
    as (context & Hc & Ht & _ & Hn).
  rewrite Hb in Hn.
  unfold generate_response, rag_step. rewrite Hc.
  cbn [bind_outcome fst snd]. rewrite Ht, Hn. cbn [negb andb].
  rewrite andb_false_r. eexists. split; [reflexivity|].
  cbn [turn_sources].
  match goal with
  | |- context [web_step ?p ?u ?l] =>
      destruct (web_step_sources p u l) as (labels & Hw & _)
  end.
  rewrite Hw. reflexivity.
Qed.

Lemma default_report_attributed_witness :
  exists t,
    generate_response (EM := provider) (RM := remote) seeded []
                      "north" "Detailed" true false = Returned t /\
    hd_error (turn_sources t) =
      Some (page_icon ++ " Amazon 2023 Annual Report").
Proof.
  apply (@default_report_attributed provider remote seeded [] "north"
           "Detailed" false
           [{| document := nth 0 (documents seeded) (chunk "" 0);
               similarity := 1 |}]
           {| document := nth 0 (documents seeded) (chunk "" 0);
              similarity := 1 |});
    [reflexivity|simpl; auto|reflexivity].
Defined.

(** X21: [should_use_web_search] tests the lowered prompt, so the
    indicators "Q1" to "Q4" never match: on every prompt it gives what it
    gives with the fifteen indicators in lower case alone. *)
Theorem web_indicators_uppercase_dead (prompt : string) :
  should_use_web_search prompt =
  any_in lowercase_indicators (lower prompt).
Proof.
  unfold should_use_web_search, any_in, web_search_indicators,
    lowercase_indicators.
  cbn [existsb].
  rewrite (@not_lower_never_in "Q1" prompt) by discriminate.
  rewrite (@not_lower_never_in "Q2" prompt) by discriminate.
  rewrite (@not_lower_never_in "Q3" prompt) by discriminate.
  rewrite (@not_lower_never_in "Q4" prompt) by discriminate.
  reflexivity.
Qed.

End TurnFacts.

(* ------------------------------------------------------------------------ *)
(** ** The formatted web results *)

Module WebFacts.
Import PyStr PyStrFacts WebSearchTool WindowFacts RetrievalFacts.
Local Open Scope string_scope.

Lemma format_one_keeps (k : string) (l : list (nat * WebResult))
      (acc : string) :
  contains k acc = true -> contains k (fold_left format_one l acc) = true.
Proof.
  revert acc; induction l as [|ir l IH]; intros acc H; [assumption|].
  simpl. apply IH. unfold format_one. now apply contains_append_l.
Qed.

Lemma format_one_holds (l : list (nat * WebResult)) (acc : string)
      (ir : nat * WebResult) :
  In ir l ->
  contains ("Title: " ++ get_or (title (snd ir)) "N/A" ++ "
") (fold_left format_one l acc) = true /\
  contains ("URL: " ++ get_or (url (snd ir)) "N/A" ++ "
") (fold_left format_one l acc) = true /\
  contains ("Content: " ++ slice (get_or (content (snd ir)) "N/A") 0 500
              ++ "...

") (fold_left format_one l acc) = true.
Proof.
  revert acc; induction l as [|x l IH]; intros acc H; [inversion H|].
  destruct H as [->|H]; [|now apply IH].
  simpl. repeat split; apply format_one_keeps; unfold format_one.
  - apply contains_append_r, contains_append_r, contains_append_l,
      contains_refl.
  - apply contains_append_r, contains_append_r, contains_append_r,
      contains_append_l, contains_refl.
  - apply contains_append_r, contains_append_r, contains_append_r,
      contains_append_r, contains_refl.
Qed.

Lemma combine_seq_In (A : Type) (l : list A) (x : A) (start : nat) :
  In x l -> exists i, In (i, x) (combine (seq start (List.length l)) l).
Proof.
  revert start; induction l as [|a l IH]; intros start H; [inversion H|].
  destruct H as [->|H].
  - exists start. now left.
  - destruct (IH (S start) H) as (i & Hi). exists i. now right.
Qed.

(** X25: the text that [format_search_results] makes of a response with
    results holds, for every result, its title line, its URL line and a
    content line with no more than the first 500 characters of its content,
    followed by three dots. *)
Theorem format_search_results_holds (search_results : SearchResponse)
        (r : WebResult) :
  In r (results search_results) ->
  let formatted := format_search_results search_results in
  let shown := slice (get_or (content r) "N/A") 0 500 in
  contains ("Title: " ++ get_or (title r) "N/A" ++ "
") formatted = true /\
  contains ("URL: " ++ get_or (url r) "N/A" ++ "
") formatted = true /\
  contains ("Content: " ++ shown ++ "...

") formatted = true /\
  Z.of_nat (String.length shown) <= 500.
Proof.
  intros Hr formatted shown. unfold formatted, format_search_results.
  destruct (results search_results) as [|r0 rs] eqn:E; [inversion Hr|].
  destruct (combine_seq_In _ _ 1 Hr) as (i & Hi).
  destruct (format_one_holds _ "Financial web search results:

" (i, r) Hi) as (H1 & H2 & H3). cbn [snd] in H1, H2, H3.
  assert (Hlen : Z.of_nat (String.length shown) <= 500)
    by (unfold shown; rewrite slice_length by lia; lia).
  destruct (answer search_results) as [a|];
    [destruct (truthy a)|]; repeat split; try assumption;
    now apply contains_append_l.
Qed.

Lemma format_search_results_holds_witness :
  let search_results :=
    {| results := [ {| title := Some "Results"; url := None;
                       content := Some "Net sales increased." |} ];
       answer := Some "Up." |} in
  let r := {| title := Some "Results"; url := None;
              content := Some "Net sales increased." |} in
  let formatted := format_search_results search_results in
  let shown := slice (get_or (content r) "N/A") 0 500 in
  contains ("Title: " ++ get_or (title r) "N/A" ++ "
") formatted = true /\
  contains ("URL: " ++ get_or (url r) "N/A" ++ "
") formatted = true /\
  contains ("Content: " ++ shown ++ "...

") formatted = true /\
  Z.of_nat (String.length shown) <= 500.
Proof.
  apply (@format_search_results_holds
           {| results := [ {| title := Some "Results"; url := None;
                              content := Some "Net sales increased." |} ];
              answer := Some "Up." |}
           {| title := Some "Results"; url := None;
              content := Some "Net sales increased." |}).
  simpl. auto.
Defined.

End WebFacts.

(* ------------------------------------------------------------------------ *)
(** ** The required keys of the configuration *)

Module ConfigFacts.
Import PyStr PyStrFacts Config.
Local Open Scope string_scope.

Lemma forallb_rev (A : Type) (f : A -> bool) (l : list A) :
  forallb f (rev l) = forallb f l.
Proof.
  induction l as [|a l IH]; [reflexivity|]. simpl.
  rewrite forallb_app, IH. simpl. rewrite andb_true_r. apply andb_comm.
Qed.

Lemma blank_reverse (s : string) : blank (reverse s) = blank s.
Proof.
  unfold blank, reverse.
  now rewrite list_ascii_of_string_of_list_ascii, forallb_rev.
Qed.

Lemma truthy_reverse (s : string) : truthy (reverse s) = truthy s.
Proof.
  unfold reverse. destruct s as [|c s]; [reflexivity|]. simpl.
  destruct (rev (chars s)); reflexivity.
Qed.

Lemma blank_lstrip (s : string) : blank (lstrip s) = blank s.
Proof.
  unfold blank. induction s as [|c s IH]; [reflexivity|]. simpl.
  destruct (is_space c) eqn:E; simpl; [assumption|now rewrite E].
Qed.

Lemma truthy_lstrip (s : string) : truthy (lstrip s) = negb (blank s).
Proof.
  unfold blank. induction s as [|c s IH]; [reflexivity|]. simpl.
  destruct (is_space c); [assumption|reflexivity].
Qed.

(** What is left of a string after [strip] is empty exactly when the string
    holds blanks only. *)
Lemma truthy_strip (s : string) : truthy (strip s) = negb (blank s).
Proof.
  unfold strip, rstrip.
  now rewrite truthy_reverse, truthy_lstrip, blank_reverse, blank_lstrip.
Qed.

Lemma blank_truthy (s : string) : blank s = false -> truthy s = true.
Proof. destruct s; [discriminate|reflexivity]. Qed.

(** ** Properties of the configuration *)

(** X22: [validate] skips the required keys that are empty and tests the
    others: it fails exactly when some required key is not empty and holds
    blanks only.  A configuration without any key passes. *)
Theorem validate_false_iff (self : t) :
  validate self = false <->
  exists field,
    In field (required self) /\ field <> "" /\ blank field = true.
Proof.
  unfold validate. split.
  - intros H.
    destruct (forallb _ _) eqn:E in H; [discriminate|]. clear H.
    apply not_true_iff_false in E.
    rewrite forallb_forall in E.
    assert (Hex : exists field,
               In field (filter truthy (required self)) /\
               truthy (strip field) = false).
    { induction (filter truthy (required self)) as [|f l IH].
      - exfalso. apply E. intros x [].
      - destruct (truthy (strip f)) eqn:Ef.
        + destruct IH as (x & Hx & Hs).
          * intros H. apply E. intros x [<-|Hx]; [assumption|now apply H].
          * exists x. split; [now right|assumption].
        + exists f. split; [now left|assumption]. }
    destruct Hex as (field & Hin & Hs).
    apply filter_In in Hin as [Hin Ht]. exists field.
    split; [assumption|]. split.
    + now intros ->.
    + rewrite truthy_strip in Hs. now apply negb_false_iff in Hs.
  - intros (field & Hin & Hne & Hb).
    apply not_true_iff_false. intros H. rewrite forallb_forall in H.
    specialize (H field). rewrite truthy_strip, Hb in H.
    assert (Hf : In field (filter truthy (required self))).
    { apply filter_In. split; [assumption|].
      destruct field; [contradiction|reflexivity]. }
    specialize (H Hf). discriminate.
Qed.

(** X23: when [get_missing_keys] reports no key, [validate] passes. *)
Theorem no_missing_keys_validate (self : t) :
  get_missing_keys self = [] -> validate self = true.
Proof.
  unfold get_missing_keys, validate, required. intros H.
  destruct (truthy (strip (AZURE_OPENAI_ENDPOINT self))) eqn:E1;
    [|discriminate].
  destruct (truthy (strip (AZURE_OPENAI_API_KEY self))) eqn:E2;
    [|discriminate].
  destruct (truthy (strip (TAVILY_API_KEY self))) eqn:E3; [|discriminate].
  apply forallb_forall. intros x Hx. apply filter_In in Hx as [Hx _].
  destruct Hx as [<-|[<-|[<-|[]]]]; assumption.
Qed.

Lemma no_missing_keys_validate_witness :
  validate {| AZURE_OPENAI_ENDPOINT := "https://example.openai.azure.com";
              AZURE_OPENAI_API_KEY := " key ";
              TAVILY_API_KEY := "tvly" |} = true.
Proof.
  apply (@no_missing_keys_validate
           {| AZURE_OPENAI_ENDPOINT := "https://example.openai.azure.com";
              AZURE_OPENAI_API_KEY := " key ";
              TAVILY_API_KEY := "tvly" |}).
  reflexivity.
Defined.

End ConfigFacts.
